(** * River levels from the SEPA time-series API: a model of [river/get_level.py]

    The module has two functions: [_first_hit], which fetches a station-list
    endpoint and decodes its first record, and [get_river_level], which
    validates the date, resolves the station, fetches one day of values and
    builds a timestamp-indexed table.

    Python values are modelled as Rocq data, exceptions as the left summand
    of a result, and the network as a request log threaded through a small
    state-and-error monad.  What [requests], [pandas] and the interpreter
    decide on their own (what the server answers, how a table is built from
    rows, how a timestamp is parsed, how a float prints) is a field of the
    class [Environment]; every theorem holds for every environment. *)

From Stdlib Require Import String Ascii List ZArith Bool Lia DecimalString.
Import ListNotations.
Local Open Scope string_scope.
Local Open Scope Z_scope.

(** ** Python strings

    A [str] is a [string]; a character is a code point below 256. *)

Module PyStr.

(** [needle in hay] for two strings. *)
Fixpoint contains (needle hay : string) : bool :=
  prefix needle hay
  || match hay with
     | EmptyString => false
     | String _ rest => contains needle rest
     end.

(** [c.isspace()] on the code points below 256. *)
Definition isspace (c : ascii) : bool :=
  let n := Z.of_nat (nat_of_ascii c) in
  ((9 <=? n) && (n <=? 13)) || ((28 <=? n) && (n <=? 32))
  || (n =? 133) || (n =? 160).

Fixpoint lstrip (s : string) : string :=
  match s with
  | EmptyString => EmptyString
  | String c rest => if isspace c then lstrip rest else s
  end.

Fixpoint rstrip (s : string) : string :=
  match s with
  | EmptyString => EmptyString
  | String c rest =>
      match rstrip rest with
      | EmptyString => if isspace c then EmptyString else String c EmptyString
      | kept => String c kept
      end
  end.

(** [s.strip()] *)
Definition strip (s : string) : string := rstrip (lstrip s).

(** [s.split(sep)] for a one-character separator: never the empty list. *)
Fixpoint split (sep : ascii) (s : string) : list string :=
  match s with
  | EmptyString => [EmptyString]
  | String c rest =>
      if Ascii.eqb c sep then EmptyString :: split sep rest
      else match split sep rest with
           | [] => [String c EmptyString]
           | w :: ws => String c w :: ws
           end
  end.

(** The characters of a string, each as a one-character string (what
    iterating over a [str] yields). *)
Fixpoint chars (s : string) : list string :=
  match s with
  | EmptyString => []
  | String c rest => String c EmptyString :: chars rest
  end.

(** Decimal text of an integer, as [str(n)] prints it. *)
Definition of_Z (n : Z) : string := NilZero.string_of_int (Z.to_int n).

Fixpoint zeros (k : nat) : string :=
  match k with
  | O => EmptyString
  | S k' => String "0" (zeros k')
  end.

(** [f"{n:0{width}d}"] for a non-negative [n]. *)
Definition zfill (width : nat) (n : Z) : string :=
  let digits := of_Z n in
  zeros (width - String.length digits) ++ digits.

End PyStr.

(** ** [urllib.parse.quote_plus] *)

Module Urllib.

Definition hex_digit (n : Z) : ascii :=
  ascii_of_nat (Z.to_nat (if n <? 10 then 48 + n else 55 + n)).

(** [%XX] with upper-case digits. *)
Definition percent (byte : Z) : string :=
  String "%" (String (hex_digit (byte / 16)) (String (hex_digit (byte mod 16)) EmptyString)).

(** Letters, digits and [_.-~] are never quoted. *)
Definition always_safe (c : ascii) : bool :=
  let n := Z.of_nat (nat_of_ascii c) in
  ((65 <=? n) && (n <=? 90)) || ((97 <=? n) && (n <=? 122))
  || ((48 <=? n) && (n <=? 57))
  || (n =? 95) || (n =? 46) || (n =? 45) || (n =? 126).

(** One character: kept, a space turned into [+], or the percent-escape of
    its UTF-8 bytes (two bytes from code point 128 on). *)
Definition quote_char (c : ascii) : string :=
  let n := Z.of_nat (nat_of_ascii c) in
  if always_safe c then String c EmptyString
  else if n =? 32 then "+"
  else if n <? 128 then percent n
  else percent (192 + n / 64) ++ percent (128 + n mod 64).

Fixpoint quote_plus (s : string) : string :=
  match s with
  | EmptyString => EmptyString
  | String c rest => quote_char c ++ quote_plus rest
  end.

End Urllib.

Definition _q : string -> string := Urllib.quote_plus.

(** ** JSON values as [json.loads] returns them *)

#[warnings="-register-all"]
Inductive json : Type :=
| JNull                                   (* None *)
| JBool (b : bool)
| JInt (n : Z)
| JFloat (bits : Z)                       (* the 64 bits of an IEEE-754 double *)
| JStr (s : string)
| JList (items : list json)
| JDict (fields : list (string * json)).  (* keys in insertion order *)

Module Float.

Definition exponent (bits : Z) : Z := Z.land (Z.shiftr bits 52) 2047.
Definition mantissa (bits : Z) : Z := Z.land bits (Z.ones 52).
Definition negative (bits : Z) : bool := Z.testbit bits 63.

Definition is_nan (bits : Z) : bool :=
  (exponent bits =? 2047) && negb (mantissa bits =? 0).
Definition is_zero (bits : Z) : bool :=
  (exponent bits =? 0) && (mantissa bits =? 0).

(** [x == y] on two floats. *)
Definition eqb (x y : Z) : bool :=
  negb (is_nan x) && negb (is_nan y)
  && ((x =? y) || (is_zero x && is_zero y)).

(** [x == n] for a float and an integer: the float is finite and its exact
    value, [m * 2^e], is [n]. *)
Definition eqb_int (x n : Z) : bool :=
  if exponent x =? 2047 then false
  else
    let m := if exponent x =? 0 then mantissa x else 2 ^ 52 + mantissa x in
    let m := if negative x then - m else m in
    let e := (if exponent x =? 0 then 1 else exponent x) - 1075 in
    if 0 <=? e then m * 2 ^ e =? n else m =? n * 2 ^ (- e).

End Float.

Module Py.

(** [bool(v)] *)
Definition truthy (v : json) : bool :=
  match v with
  | JNull => false
  | JBool b => b
  | JInt n => negb (n =? 0)
  | JFloat bits => negb (Float.is_zero bits)
  | JStr s => negb (String.eqb s EmptyString)
  | JList items => match items with [] => false | _ => true end
  | JDict fields => match fields with [] => false | _ => true end
  end.

(** [isinstance(v, list)], [isinstance(v, dict)] *)
Definition isinstance_list (v : json) : bool :=
  match v with JList _ => true | _ => false end.
Definition isinstance_dict (v : json) : bool :=
  match v with JDict _ => true | _ => false end.

(** [len(v)]; [None] where Python raises [TypeError]. *)
Definition len (v : json) : option nat :=
  match v with
  | JList items => Some (List.length items)
  | JStr s => Some (String.length s)
  | JDict fields => Some (List.length fields)
  | _ => None
  end.

(** [len(v)] where [v] is known to be sized. *)
Definition size (v : json) : nat :=
  match len v with Some n => n | None => O end.

(** [list(v)]: the items of a list, the characters of a string, the keys
    of a dict; [None] where [v] is not iterable. *)
Definition iter (v : json) : option (list json) :=
  match v with
  | JList items => Some items
  | JStr s => Some (map JStr (PyStr.chars s))
  | JDict fields => Some (map (fun kv => JStr (fst kv)) fields)
  | _ => None
  end.

(** [v[i]] on a list; read only under a guard on the length. *)
Definition item (v : json) (i : nat) : json :=
  match v with
  | JList items => nth i items JNull
  | _ => JNull
  end.

(** Lists and dicts have no hash. *)
Definition hashable (v : json) : bool :=
  match v with JList _ | JDict _ => false | _ => true end.

(** Two keys as a dict tells them apart: the same object, or [a == b].
    Numbers (booleans included) compare by value, strings by content,
    [None] only equals itself; the NaN of a parsed body is one object, so
    a float of the same bits is the same key. *)
Definition int_of_bool (b : bool) : Z := if b then 1 else 0.

Definition key_eqb (a b : json) : bool :=
  match a, b with
  | JNull, JNull => true
  | JStr s, JStr t => String.eqb s t
  | JBool x, JBool y => Bool.eqb x y
  | JBool x, JInt n | JInt n, JBool x => int_of_bool x =? n
  | JBool x, JFloat f | JFloat f, JBool x => Float.eqb_int f (int_of_bool x)
  | JInt n, JInt m => n =? m
  | JInt n, JFloat f | JFloat f, JInt n => Float.eqb_int f n
  | JFloat f, JFloat g => (f =? g) || Float.eqb f g
  | _, _ => false
  end.

(** A [dict] with arbitrary hashable keys: bindings in insertion order, one
    per key. *)
Definition dict : Type := list (json * json).

(** [d[k] = v]: an existing key keeps its place and takes the new value. *)
Fixpoint setitem (k v : json) (d : dict) : dict :=
  match d with
  | [] => [(k, v)]
  | (k', v') :: rest =>
      if key_eqb k' k then (k', v) :: rest else (k', v') :: setitem k v rest
  end.

(** [d.get(k)] *)
Fixpoint getitem (k : json) (d : dict) : option json :=
  match d with
  | [] => None
  | (k', v) :: rest => if key_eqb k' k then Some v else getitem k rest
  end.

(** [dict(pairs)]; [None] when some key is unhashable ([TypeError]). *)
Definition dict_of (pairs : list (json * json)) : option dict :=
  if forallb (fun kv => hashable (fst kv)) pairs
  then Some (fold_left (fun d kv => setitem (fst kv) (snd kv) d) pairs [])
  else None.

(** [zip(xs, ys)] *)
Definition zip (xs ys : list json) : list (json * json) := combine xs ys.

(** [k in fields] and [fields[k]] on a JSON object. *)
Fixpoint lookup (k : string) (fields : list (string * json)) : option json :=
  match fields with
  | [] => None
  | (k', v) :: rest => if String.eqb k' k then Some v else lookup k rest
  end.

Definition has_key (k : string) (v : json) : bool :=
  match v with
  | JDict fields => match lookup k fields with Some _ => true | None => false end
  | _ => false
  end.

End Py.

(** ** [datetime.date] and [datetime.datetime] *)

Record date : Type := { year : Z; month : Z; day : Z }.

Record datetime : Type :=
  { on : date; hour : Z; minute : Z; second : Z; microsecond : Z }.

(** [d.isoformat()]: [YYYY-MM-DD]. *)
Definition isoformat (d : date) : string :=
  PyStr.zfill 4 (year d) ++ "-" ++ PyStr.zfill 2 (month d) ++ "-" ++ PyStr.zfill 2 (day d).

(** What a caller can pass as [date]. *)
Inductive date_arg : Type :=
| DateStr (s : string)
| DateObj (d : date)
| DateTimeObj (dt : datetime).

(** ** Exceptions

    Those raised by the module's own statements and by the interpreter are
    constructors of their own; those raised inside [requests] and [pandas]
    are kept apart by origin. *)

Inductive transport_error : Type := ConnectionError | ReadTimeout | TooManyRedirects.

Inductive requests_exn : Type :=
| Transport (e : transport_error)     (* raised by [requests.get] *)
| HTTPError (status : Z)              (* raised by [raise_for_status] *)
| JSONDecodeError.                    (* raised by [r.json()] *)

(** An exception leaving pandas: its class name and message. *)
Inductive pandas_exn : Type := PdError (cls msg : string).

Inductive exn : Type :=
| ValueError (msg : string)
| TypeError
| KeyError (key : string)
| AttributeError (attr : string)
| LookupError (msg : string)
| RequestException (e : requests_exn)
| PandasError (e : pandas_exn).

(** [isinstance(e, LookupError)]: the class itself and its subclasses
    [KeyError] and [IndexError]. *)
Definition isinstance_LookupError (e : exn) : bool :=
  match e with
  | LookupError _ | KeyError _ => true
  | PandasError (PdError cls _) =>
      String.eqb cls "KeyError" || String.eqb cls "IndexError"
  | _ => false
  end.

Definition result (A : Type) : Type := (exn + A)%type.

(** ** Requests, responses and tables *)

(** A [requests.Session] handle. *)
Definition Session : Type := nat.

(** One outbound GET: through which client ([None] is the [requests] module
    itself), to which URL, with which timeout. *)
Record request : Type :=
  { via : option Session; url : string; timeout : Z }.

(** A response: its status and its body as JSON, [None] when the body is not
    JSON text. *)
Record response : Type := { status_code : Z; body : option json }.

(** A table cell: a Python object, a timezone-aware instant (nanoseconds
    since the epoch, UTC) or the missing instant. *)
Inductive cell : Type :=
| Obj (v : json)
| Instant (ns : Z)
| NaT.

(** A table: its column labels, the name of its index ([None] for the
    default positional index) and its rows, each with its index label. *)
Record DataFrame : Type :=
  { columns : list string;
    index_name : option string;
    rows : list (cell * list cell) }.

Definition index (df : DataFrame) : list cell := map fst (rows df).

(** The table of a list of rows aligned with the column labels: the rows in
    order, labelled 0, 1, 2, ... *)
Fixpoint labelled (i : Z) (rs : list (list json)) : list (cell * list cell) :=
  match rs with
  | [] => []
  | r :: rest => (Obj (JInt i), map Obj r) :: labelled (i + 1) rest
  end.

Definition frame_of_rows (cols : list string) (rs : list (list json)) : DataFrame :=
  {| columns := cols; index_name := None; rows := labelled 0 rs |}.

(** What lies outside the module: the server, which may answer by the
    requests made so far; [str()] of a value that is not a string, an
    integer, a boolean or [None]; the [pandas.DataFrame] constructor called
    with rows and column names; and [pandas.to_datetime(_, utc=True)] on a
    column. *)
Class Environment : Type :=
  { server : list request -> request -> transport_error + response;
    py_repr : json -> string;
    pd_DataFrame : json -> list string -> pandas_exn + DataFrame;
    pd_to_datetime : list cell -> pandas_exn + list cell }.

(** ** The monad: a request log and a result *)

Definition M (A : Type) : Type := list request -> result A * list request.

Definition ret {A : Type} (a : A) : M A := fun log => (inr a, log).

Definition raise {A : Type} (e : exn) : M A := fun log => (inl e, log).

Definition lift {A : Type} (r : result A) : M A := fun log => (r, log).

Definition bind {A B : Type} (m : M A) (k : A -> M B) : M B :=
  fun log =>
    match m log with
    | (inl e, log') => (inl e, log')
    | (inr a, log') => k a log'
    end.

(** [try: m  except LookupError: handler] *)
Definition try_except_LookupError {A : Type} (m handler : M A) : M A :=
  fun log =>
    match m log with
    | (inl e, log') =>
        if isinstance_LookupError e then handler log' else (inl e, log')
    | done => done
    end.

Declare Scope py_scope.
Delimit Scope py_scope with py.
Notation "x <- m ;; k" := (bind m (fun x => k))
  (at level 61, m at next level, right associativity) : py_scope.
Notation "m ;; k" := (bind m (fun _ => k))
  (at level 61, right associativity) : py_scope.
Local Open Scope py_scope.

Section Module_get_level.

Context {env : Environment}.

(** *** [requests] *)

(** [client.get(url, timeout=t)]: the request is logged and the server's
    answer, or the transport failure, comes back. *)
Definition get (client : option Session) (u : string) (t : Z) : M response :=
  fun log =>
    let req := {| via := client; url := u; timeout := t |} in
    (match server log req with
     | inl e => inl (RequestException (Transport e))
     | inr r => inr r
     end, (log ++ [req])%list).

(** [r.raise_for_status()]: client and server error statuses raise. *)
Definition raise_for_status (r : response) : result unit :=
  if (400 <=? status_code r) && (status_code r <? 600)
  then inl (RequestException (HTTPError (status_code r)))
  else inr tt.

(** [r.json()] *)
Definition json_of (r : response) : result json :=
  match body r with
  | Some v => inr v
  | None => inl (RequestException JSONDecodeError)
  end.

(** *** Module constants *)

Definition _API_ROOT : string := "https://timeseries.sepa.org.uk/KiWIS/KiWIS".
Definition _DEFAULT_RETURN_FIELDS : string := "Timestamp,Value,Quality Code".

(** *** [_first_hit] *)

Definition no_matching_records : exn :=
  LookupError "No matching records returned by SEPA.".
Definition row_header_mismatch : exn :=
  LookupError "Malformed response from SEPA (row/header mismatch).".

(** Lines 31-44: the decoding of the parsed body.  The four tests of the
    guard are evaluated left to right and stop at the first true one, so
    [len(data)] and [data[0]] are only read on a non-empty list. *)
Definition first_hit_record (data : json) : result Py.dict :=
  if negb (Py.truthy data)
     || negb (Py.isinstance_list data)
     || (Py.size data <? 2)%nat
     || negb (Py.isinstance_list (Py.item data 0))
  then inl no_matching_records
  else
    let header := Py.item data 0 in
    let first_row := Py.item data 1 in
    match Py.len first_row, Py.len header with
    | Some n, Some m =>
        if negb (n =? m)%nat then inl row_header_mismatch
        else
          match Py.iter header, Py.iter first_row with
          | Some hs, Some vs =>
              match Py.dict_of (Py.zip hs vs) with
              | Some d => inr d
              | None => inl TypeError
              end
          | _, _ => inl TypeError
          end
    | _, _ => inl TypeError
    end.

Definition _first_hit (u : string) : M Py.dict :=
  r <- get None u 30 ;;
  lift (raise_for_status r) ;;
  data <- lift (json_of r) ;;
  lift (first_hit_record data).

(** *** The table operations [get_river_level] uses *)

Notation "'let*' x := r 'in' k" :=
  (match r with inl e => inl e | inr x => k end)
  (at level 10, x name, r at level 100, k at level 200, only parsing).

Definition from_pandas {A : Type} (r : pandas_exn + A) : result A :=
  match r with
  | inl e => inl (PandasError e)
  | inr a => inr a
  end.

(** [df.empty]: some axis has length zero. *)
Definition df_empty (df : DataFrame) : bool :=
  (List.length (columns df) =? 0)%nat || (List.length (rows df) =? 0)%nat.

(** The positions at which [label] occurs among the columns, from [i] on. *)
Fixpoint positions (label : string) (cols : list string) (i : nat) : list nat :=
  match cols with
  | [] => []
  | c :: rest =>
      if String.eqb c label then i :: positions label rest (S i)
      else positions label rest (S i)
  end.

Definition column (i : nat) (df : DataFrame) : list cell :=
  map (fun r => nth i (snd r) NaT) (rows df).

(** What [df[label]] selects: one column, or a sub-table when several
    columns carry the label. *)
Inductive selection : Type :=
| Series (values : list cell)
| SubFrame (width : nat).

(** [df[label]] *)
Definition df_getitem (df : DataFrame) (label : string) : result selection :=
  match positions label (columns df) 0 with
  | [] => inl (PandasError (PdError "KeyError" label))
  | [i] => inr (Series (column i df))
  | several => inr (SubFrame (List.length several))
  end.

(** [pd.to_datetime(sel, utc=True)]: a sub-table with repeated labels is
    refused, a column goes to the parser. *)
Definition to_datetime_utc (sel : selection) : result (list cell) :=
  match sel with
  | Series values => from_pandas (pd_to_datetime values)
  | SubFrame _ =>
      inl (PandasError (PdError "ValueError" "cannot assemble with duplicate keys"))
  end.

Fixpoint replace_nth (i : nat) (v : cell) (r : list cell) : list cell :=
  match r, i with
  | [], _ => []
  | _ :: rest, O => v :: rest
  | x :: rest, S i' => x :: replace_nth i' v rest
  end.

Fixpoint remove_nth {A : Type} (i : nat) (r : list A) : list A :=
  match r, i with
  | [], _ => []
  | _ :: rest, O => rest
  | x :: rest, S i' => x :: remove_nth i' rest
  end.

(** [df[label] = values] for a label carried by one column: the values
    must be as many as the rows. *)
Definition df_setitem (df : DataFrame) (label : string) (values : list cell)
  : result DataFrame :=
  match positions label (columns df) 0 with
  | [i] =>
      if (List.length values =? List.length (rows df))%nat
      then inr {| columns := columns df;
                  index_name := index_name df;
                  rows := map (fun rv => (fst (fst rv), replace_nth i (snd rv) (snd (fst rv))))
                              (combine (rows df) values) |}
      else inl (PandasError (PdError "ValueError" "Length of values does not match length of index"))
  | _ => inl (PandasError (PdError "ValueError" "Cannot set a DataFrame with multiple columns"))
  end.

(** [df.set_index(label, inplace=True)]: the column leaves the table and
    labels the rows. *)
Definition df_set_index (df : DataFrame) (label : string) : result DataFrame :=
  match positions label (columns df) 0 with
  | [i] =>
      inr {| columns := remove_nth i (columns df);
             index_name := Some label;
             rows := map (fun r => (nth i (snd r) NaT, remove_nth i (snd r))) (rows df) |}
  | _ => inl (PandasError (PdError "KeyError" label))
  end.

(** *** [get_river_level] *)

Definition not_a_date : exn :=
  ValueError "Pass a *date* (YYYY-MM-DD), not a full timestamp.".

(** Lines 77-80.  A [date] that is not a [datetime] becomes its ISO text;
    then ["T" in date] is asked of whatever [date] now is, and a
    [datetime] does not support [in]. *)
Definition checked_date (d : date_arg) : result string :=
  let d := match d with
           | DateObj d0 => DateStr (isoformat d0)
           | other => other
           end in
  match d with
  | DateStr s => if PyStr.contains "T" s then inl not_a_date else inr s
  | _ => inl TypeError
  end.

(** [f"{v}"] *)
Definition py_str (v : json) : string :=
  match v with
  | JStr s => s
  | JInt n => PyStr.of_Z n
  | JBool true => "True"
  | JBool false => "False"
  | JNull => "None"
  | other => py_repr other
  end.

(** [v[k]] and [k in v] on a JSON object. *)
Definition field (k : string) (v : json) : option json :=
  match v with
  | JDict fields => Py.lookup k fields
  | _ => None
  end.

Definition malformed_values (name date : string) : exn :=
  LookupError ("Malformed response fetching values for " ++ name ++ " on " ++ date ++ ".").
Definition no_level_values (name date : string) : exn :=
  LookupError ("No level values found for " ++ name ++ " on " ++ date ++ ".").

(** Lines 119-136: from the parsed body of the values endpoint to the
    table. *)
Definition values_frame (name date : string) (raw : json) : result DataFrame :=
  if negb (Py.truthy raw)
     || negb (Py.isinstance_list raw)
     || negb (Py.isinstance_dict (Py.item raw 0))
     || negb (Py.has_key "data" (Py.item raw 0))
  then inl (malformed_values name date)
  else
    let rec := Py.item raw 0 in
    match field "columns" rec with
    | None => inl (KeyError "columns")
    | Some (JStr text) =>
        let cols := map PyStr.strip (PyStr.split "," text) in
        match field "data" rec with
        | None => inl (KeyError "data")
        | Some data =>
            let* df := from_pandas (pd_DataFrame data cols) in
            if df_empty df then inl (no_level_values name date)
            else
              let* stamps := df_getitem df "Timestamp" in
              let* instants := to_datetime_utc stamps in
              let* df := df_setitem df "Timestamp" instants in
              df_set_index df "Timestamp"
        end
    | Some _ => inl (AttributeError "split")
    end.

Definition base_query : string :=
  _API_ROOT ++ "?service=kisters&type=queryServices&datasource=0"
  ++ "&request=getStationList&object_type=General&format=json"
  ++ "&returnfields=station_no,station_name,river_name".

Definition station_name_query (name : string) : string :=
  base_query ++ "&station_name=" ++ _q name.
Definition river_name_query (name : string) : string :=
  base_query ++ "&river_name=" ++ _q name.

Definition ts_path_of (sta_no : json) (parameter resolution : string) : string :=
  "1/" ++ py_str sta_no ++ "/" ++ parameter ++ "/" ++ resolution.

Definition values_query (ts_path date : string) : string :=
  let from_arg := date in
  let to_arg := date ++ "T23:59:59" in
  _API_ROOT ++ "?service=kisters&type=queryServices&datasource=0"
  ++ "&request=getTimeseriesValues&ts_path=" ++ _q ts_path
  ++ "&from=" ++ from_arg ++ "&to=" ++ to_arg
  ++ "&returnfields=" ++ _q _DEFAULT_RETURN_FIELDS ++ "&format=json".

(** Lines 90-97: the station record, by station name and, on a
    [LookupError], by river name; then its [station_no]. *)
Definition station_no_of (name : string) : M json :=
  station <- try_except_LookupError
               (_first_hit (station_name_query name))
               (_first_hit (river_name_query name)) ;;
  match Py.getitem (JStr "station_no") station with
  | Some sta_no => ret sta_no
  | None => raise (KeyError "station_no")
  end.

(** [session or requests]: a session object is always true, so the values
    request goes through it when one is given; [_first_hit] always uses
    the module. *)
Definition get_river_level (name : string) (date : date_arg)
    (parameter resolution : string) (session : option Session) : M DataFrame :=
  date <- lift (checked_date date) ;;
  let sess := session in
  sta_no <- station_no_of name ;;
  let ts_path := ts_path_of sta_no parameter resolution in
  let qry_values := values_query ts_path date in
  resp <- get sess qry_values 60 ;;
  lift (raise_for_status resp) ;;
  raw <- lift (json_of resp) ;;
  lift (values_frame name date raw).

End Module_get_level.

(** The defaults of the keyword arguments. *)
Definition default_parameter : string := "SG".
Definition default_resolution : string := "15m.Cmd".

(** * Calendar arithmetic and ISO-8601 timestamps *)

Module Calendar.

Definition digit (c : ascii) : option Z :=
  let n := Z.of_nat (nat_of_ascii c) in
  if (48 <=? n) && (n <=? 57) then Some (n - 48) else None.

Fixpoint number_from (s : string) (acc : Z) : option Z :=
  match s with
  | EmptyString => Some acc
  | String c rest =>
      match digit c with
      | Some d => number_from rest (10 * acc + d)
      | None => None
      end
  end.

Definition number (s : string) : option Z :=
  match s with
  | EmptyString => None
  | _ => number_from s 0
  end.

(** Days from 1970-01-01 to a date of the proleptic Gregorian calendar. *)
Definition days_from_civil (y m d : Z) : Z :=
  let y := if m <=? 2 then y - 1 else y in
  let era := y / 400 in
  let yoe := y - era * 400 in
  let mp := (m + 9) mod 12 in
  let doy := (153 * mp + 2) / 5 + d - 1 in
  let doe := yoe * 365 + yoe / 4 - yoe / 100 + doy in
  era * 146097 + doe - 719468.

Definition option_bind {A B : Type} (o : option A) (k : A -> option B) : option B :=
  match o with
  | Some a => k a
  | None => None
  end.

(** Seconds from the epoch to midnight of [YYYY-MM-DD]. *)
Definition midnight (s : string) : option Z :=
  if (String.length s =? 10)%nat
     && String.eqb (substring 4 1 s) "-" && String.eqb (substring 7 1 s) "-"
  then
    option_bind (number (substring 0 4 s)) (fun y =>
    option_bind (number (substring 5 2 s)) (fun m =>
    option_bind (number (substring 8 2 s)) (fun d =>
    if (1 <=? m) && (m <=? 12) && (1 <=? d) && (d <=? 31)
    then Some (86400 * days_from_civil y m d) else None)))
  else None.

(** Seconds into the day of [HH:MM:SS]. *)
Definition clock (s : string) : option Z :=
  if (String.length s =? 8)%nat
     && String.eqb (substring 2 1 s) ":" && String.eqb (substring 5 1 s) ":"
  then
    option_bind (number (substring 0 2 s)) (fun h =>
    option_bind (number (substring 3 2 s)) (fun m =>
    option_bind (number (substring 6 2 s)) (fun sec =>
    if (h <? 24) && (m <? 60) && (sec <? 60)
    then Some (3600 * h + 60 * m + sec) else None)))
  else None.

(** Seconds east of UTC of a zone suffix: none, [Z] or [+HH:MM] / [-HH:MM]. *)
Definition zone (s : string) : option Z :=
  if String.eqb s "" || String.eqb s "Z" then Some 0
  else if (String.length s =? 6)%nat && String.eqb (substring 3 1 s) ":" then
    option_bind (number (substring 1 2 s)) (fun h =>
    option_bind (number (substring 4 2 s)) (fun m =>
    if String.eqb (substring 0 1 s) "+" then Some (3600 * h + 60 * m)
    else if String.eqb (substring 0 1 s) "-" then Some (- (3600 * h + 60 * m))
    else None))
  else None.

(** Nanoseconds from the epoch of [YYYY-MM-DDTHH:MM:SS[.mmm][zone]]. *)
Definition instant_of (s : string) : option Z :=
  let tail := substring 19 (String.length s - 19) s in
  let millis_zone :=
    if String.eqb (substring 0 1 tail) "."
    then option_bind (number (substring 1 3 tail)) (fun ms =>
         Some (ms, substring 4 (String.length tail - 4) tail))
    else Some (0, tail) in
  if String.eqb (substring 10 1 s) "T" then
    option_bind (midnight (substring 0 10 s)) (fun day =>
    option_bind (clock (substring 11 8 s)) (fun secs =>
    option_bind millis_zone (fun mz =>
    option_bind (zone (snd mz)) (fun east =>
    Some (((day + secs - east) * 1000 + fst mz) * 1000000)))))
  else None.

End Calendar.

(** * A concrete environment

    A table-driven server, the table constructor on a list of aligned rows,
    and an ISO-8601 reader for [to_datetime]; the scenarios below run the
    module in it. *)

Module Scenario.

(** One cell read as a UTC instant: a timestamp text, or [None] as [NaT];
    anything else is left alone. *)
Definition utc (c : cell) : cell :=
  match c with
  | Obj (JStr s) => match Calendar.instant_of s with Some ns => Instant ns | None => c end
  | Obj JNull => NaT
  | other => other
  end.

Definition readable (c : cell) : bool :=
  match utc c with
  | Obj _ => false
  | _ => true
  end.

Definition iso_to_datetime (cells : list cell) : pandas_exn + list cell :=
  if forallb readable cells then inr (map utc cells)
  else inl (PdError "DateParseError" "Unknown datetime string format").

(** The rows of a JSON list of lists, each as wide as [width]. *)
Fixpoint aligned_rows (width : nat) (items : list json) : option (list (list json)) :=
  match items with
  | [] => Some []
  | JList r :: rest =>
      if (List.length r =? width)%nat
      then option_map (cons r) (aligned_rows width rest)
      else None
  | _ :: _ => None
  end.

Definition rows_frame (data : json) (cols : list string) : pandas_exn + DataFrame :=
  match data with
  | JList items =>
      match aligned_rows (List.length cols) items with
      | Some rs => inr (frame_of_rows cols rs)
      | None => inl (PdError "ValueError" "columns passed do not match the data")
      end
  | _ => inl (PdError "ValueError" "DataFrame constructor not properly called!")
  end.

(** A server that answers by URL, whatever was asked before; unknown URLs
    get a 404 without a JSON body. *)
Definition route : Type := (string * (transport_error + response))%type.

Fixpoint answer (routes : list route) (u : string) : transport_error + response :=
  match routes with
  | [] => inr {| status_code := 404; body := None |}
  | (u', a) :: rest => if String.eqb u' u then a else answer rest u
  end.

Definition ok (v : json) : transport_error + response :=
  inr {| status_code := 200; body := Some v |}.

Definition world (routes : list route) : Environment :=
  {| server := fun _ req => answer routes (url req);
     py_repr := fun _ => "<object>";
     pd_DataFrame := rows_frame;
     pd_to_datetime := iso_to_datetime |}.

(** The station list with the gauge at Pitnacree on the Tay, the list
    with its header only, and a list whose first row is one value short. *)
Definition header : json :=
  JList [JStr "station_no"; JStr "station_name"; JStr "river_name"].

Definition station_list : json :=
  JList [header; JList [JStr "15018"; JStr "Pitnacree"; JStr "Tay"]].

Definition no_station : json := JList [header].

Definition short_row : json :=
  JList [header; JList [JStr "15018"; JStr "Pitnacree"]].

Definition pitnacree_record : Py.dict :=
  [ (JStr "station_no", JStr "15018");
    (JStr "station_name", JStr "Pitnacree");
    (JStr "river_name", JStr "Tay") ].

(** The values request for station 15018 on 1 January 2024, and bodies
    for it. *)
Definition values_url : string :=
  values_query "1/15018/SG/15m.Cmd" "2024-01-01".

Definition fetch_values : request :=
  {| via := None; url := values_url; timeout := 60 |}.

(** One row: the timestamp, the level (the bits of a double) and the
    quality code. *)
Definition reading (stamp : string) (level : Z) : json :=
  JList [JStr stamp; JFloat level; JInt 200].

Definition level_1_5 : Z := 4609434218613702656.
Definition level_2_0 : Z := 4611686018427387904.

Definition values_of (data : list json) : json :=
  JList [ JDict [ ("ts_id", JStr "58085010");
                  ("columns", JStr "Timestamp,Value,Quality Code");
                  ("data", JList data) ] ].

Definition midnight_row : json := reading "2024-01-01T00:00:00.000Z" level_1_5.
Definition quarter_past_row : json := reading "2024-01-01T00:15:00.000Z" level_2_0.
Definition next_day_row : json := reading "2024-01-02T00:15:00.000Z" level_2_0.

(** Worlds: the station is found by its name and the values endpoint
    answers [values]; or the station is only found under the river name;
    or the first station list is malformed. *)
Definition pitnacree (values : json) : Environment :=
  world [ (station_name_query "Pitnacree", ok station_list);
          (values_url, ok values) ].

Definition tay (by_river : json) : Environment :=
  world [ (station_name_query "Tay", ok no_station);
          (river_name_query "Tay", ok by_river);
          (values_url, ok (values_of [midnight_row; quarter_past_row])) ].

Definition garbled : Environment :=
  world [ (station_name_query "Pitnacree", ok short_row);
          (river_name_query "Pitnacree", ok station_list);
          (values_url, ok (values_of [midnight_row])) ].

Definition unavailable : Environment :=
  world [ (station_name_query "Pitnacree",
           inr {| status_code := 503; body := None |}) ].

(** The example call of the module, for a station or river name. *)
Definition call {env : Environment} (name date : string)
  : result DataFrame * list request :=
  get_river_level name (DateStr date) default_parameter default_resolution None [].

(** The table of the two readings of [tay]. *)
Definition two_readings : DataFrame :=
  {| columns := ["Value"; "Quality Code"];
     index_name := Some "Timestamp";
     rows := [ (Instant 1704067200000000000, [Obj (JFloat level_1_5); Obj (JInt 200)]);
               (Instant 1704068100000000000, [Obj (JFloat level_2_0); Obj (JInt 200)]) ] |}.

End Scenario.

(** * The vocabulary of the properties *)

Section Vocabulary.

Context {env : Environment}.

(** The requests the module sends. *)
Definition station_request (u : string) : request :=
  {| via := None; url := u; timeout := 30 |}.

Definition values_request (session : option Session) (sta_no : json)
    (parameter resolution date : string) : request :=
  {| via := session;
     url := values_query (ts_path_of sta_no parameter resolution) date;
     timeout := 60 |}.

(** A request sent after [log] fails: in transport, or by an error status
    that [raise_for_status] raises.  [e] is the exception as [requests]
    raises it. *)
Definition request_fails (log : list request) (req : request) (e : exn) : Prop :=
  (exists t, server log req = inl t /\ e = RequestException (Transport t))
  \/ (exists resp, server log req = inr resp /\ raise_for_status resp = inl e).

(** A request sent after [log] is answered with a success status and the
    JSON body [data]. *)
Definition answers (log : list request) (req : request) (data : json) : Prop :=
  exists resp,
    server log req = inr resp
    /\ raise_for_status resp = inr tt
    /\ body resp = Some data.

(** [get], [raise_for_status] and [json] in a row, on a request sent after
    [log]. *)
Definition exchange (log : list request) (req : request) : result json :=
  match server log req with
  | inl t => inl (RequestException (Transport t))
  | inr resp =>
      match raise_for_status resp with
      | inl e => inl e
      | inr _ => json_of resp
      end
  end.

(** [station["station_no"]] *)
Definition station_no_in (station : Py.dict) : result json :=
  match Py.getitem (JStr "station_no") station with
  | Some sta_no => inr sta_no
  | None => inl (KeyError "station_no")
  end.

(** A call gets past the date guard with the text [date], resolves the
    station, and the values endpoint answers with the body [raw]; [log']
    is the request log once that answer is in. *)
Definition receives_values (name : string) (d : date_arg)
    (parameter resolution : string) (session : option Session)
    (log : list request) (date : string) (raw : json) (log' : list request) : Prop :=
  exists sta_no log1,
    checked_date d = inr date
    /\ station_no_of name log = (inr sta_no, log1)
    /\ answers log1 (values_request session sta_no parameter resolution date) raw
    /\ log' = (log1 ++ [values_request session sta_no parameter resolution date])%list.

(** The shapes the specification names, in its words. *)
Definition empty_body (v : json) : Prop :=
  v = JNull \/ Py.len v = Some O.

Definition not_a_list (v : json) : Prop := forall items, v <> JList items.
Definition not_a_record (v : json) : Prop := forall fields, v <> JDict fields.

(** Station list: empty, not a list, fewer than two elements, or a first
    element that is not a list. *)
Definition no_header_row (data : json) : Prop :=
  empty_body data
  \/ not_a_list data
  \/ (exists items, data = JList items /\ (List.length items < 2)%nat)
  \/ (exists first rest, data = JList (first :: rest) /\ not_a_list first).

(** Values: empty, not a list, a first element that is not a record, or a
    record without a [data] field. *)
Definition no_data_record (raw : json) : Prop :=
  empty_body raw
  \/ not_a_list raw
  \/ (exists first rest, raw = JList (first :: rest) /\ not_a_record first)
  \/ (exists fields rest,
        raw = JList (JDict fields :: rest) /\ Py.lookup "data" fields = None).

(** What is assumed of [pandas.DataFrame], where a theorem needs it.  An
    empty list gives the table without rows.  A list of rows as wide as the
    labels gives a table of that shape; [builds_aligned_rows] further takes
    the cells to be kept as they came, and is only used where the cells do
    not matter. *)
Definition builds_empty_table : Prop :=
  forall cols, pd_DataFrame (JList []) cols = inr (frame_of_rows cols []).

Definition builds_aligned_rows : Prop :=
  forall cols rs,
    Forall (fun r => List.length r = List.length cols) rs ->
    pd_DataFrame (JList (map JList rs)) cols = inr (frame_of_rows cols rs).

(** A table with a cell under every column in each of its rows. *)
Definition rectangular (df : DataFrame) : Prop :=
  Forall (fun row => List.length (snd row) = List.length (columns df)) (rows df).

(** The strings under one label are kept.  Of rows as wide as the labels,
    all with a string at place [i], a table that [pandas.DataFrame] builds
    has the labels as its columns, a cell under every column, and under the
    label at place [i] those strings, row for row; what stands under the
    other labels may have been converted. *)
Definition keeps_string_column : Prop :=
  forall cols rs i stamps df0,
    Forall (fun r => List.length r = List.length cols) rs ->
    (i < List.length cols)%nat ->
    map (fun r => nth i r JNull) rs = map JStr stamps ->
    pd_DataFrame (JList (map JList rs)) cols = inr df0 ->
    columns df0 = cols
    /\ rectangular df0
    /\ column i df0 = map (fun s => Obj (JStr s)) stamps.

(** Order and range of an index of instants. *)
Definition instant_le (a b : cell) : Prop :=
  match a, b with
  | Instant x, Instant y => x <= y
  | _, _ => False
  end.

Definition nondecreasing (labels : list cell) : Prop :=
  forall i j a b,
    (i < j)%nat -> nth_error labels i = Some a -> nth_error labels j = Some b ->
    instant_le a b.

(** Between 00:00:00 and 23:59:59 UTC of the day [date], ends included. *)
Definition within_day (date : string) (c : cell) : Prop :=
  exists t0 ns,
    Calendar.midnight date = Some t0
    /\ c = Instant ns
    /\ t0 * 1000000000 <= ns <= (t0 + 86399) * 1000000000.

(** The column labels of a values record and the entries of its rows
    under one of them. *)
Definition labels_of (text : string) : list string :=
  map PyStr.strip (PyStr.split "," text).

Definition upstream_column (i : nat) (rs : list (list json)) : list cell :=
  map (fun r => Obj (nth i r JNull)) rs.

(** The index of [df] is what [to_datetime] returns for the Timestamp
    strings of the body [raw], taken in the order of its rows: one entry per
    row, nothing reordered and nothing dropped; so it is ordered, and within
    a day, exactly when those converted timestamps are. *)
Definition index_is_converted_upstream (df : DataFrame) (raw : json) : Prop :=
  forall fields rest text rs i stamps,
    raw = JList (JDict fields :: rest) ->
    Py.lookup "columns" fields = Some (JStr text) ->
    Py.lookup "data" fields = Some (JList (map JList rs)) ->
    Forall (fun r => List.length r = List.length (labels_of text)) rs ->
    positions "Timestamp" (labels_of text) 0 = [i] ->
    map (fun r => nth i r JNull) rs = map JStr stamps ->
    exists converted,
      pd_to_datetime (map (fun s => Obj (JStr s)) stamps) = inr converted
      /\ List.length converted = List.length rs
      /\ index df = converted
      /\ (nondecreasing (index df) <-> nondecreasing converted)
      /\ (forall date,
            Forall (within_day date) (index df)
            <-> Forall (within_day date) converted).

(** The URL of lines 106-111, written out for a station number that is a
    string. *)
Definition written_values_url (number parameter resolution date : string) : string :=
  "https://timeseries.sepa.org.uk/KiWIS/KiWIS?service=kisters&type=queryServices&datasource=0&request=getTimeseriesValues&ts_path="
  ++ Urllib.quote_plus ("1/" ++ number ++ "/" ++ parameter ++ "/" ++ resolution)
  ++ "&from=" ++ date ++ "&to=" ++ date
  ++ "T23:59:59&returnfields=Timestamp%2CValue%2CQuality+Code&format=json".

(** From the table pandas built to the table returned (lines 131-136). *)
Definition indexed_by_timestamp (name date : string) (df : DataFrame)
  : result DataFrame :=
  if df_empty df then inl (no_level_values name date)
  else
    match df_getitem df "Timestamp" with
    | inl e => inl e
    | inr stamps =>
        match to_datetime_utc stamps with
        | inl e => inl e
        | inr instants =>
            match df_setitem df "Timestamp" instants with
            | inl e => inl e
            | inr df' => df_set_index df' "Timestamp"
            end
        end
    end.

(** One request and the decoding of its answer, as both functions do it:
    [get], [raise_for_status], [json], then [decode]. *)
Definition fetch_then {A : Type} (req : request) (decode : json -> result A) : M A :=
  fun log =>
    (match exchange log req with
     | inl e => inl e
     | inr v => decode v
     end, (log ++ [req])%list).

(** A computation surfaces the failures of its requests: whenever it runs,
    it only adds requests to the log, and a request among them that failed
    is the last one it sent, its exception being the result as it is. *)
Definition surfaces_failures {A : Type} (m : M A) : Prop :=
  forall log res log',
    m log = (res, log') ->
    exists reqs,
      log' = (log ++ reqs)%list
      /\ forall sent req later e,
           reqs = (sent ++ req :: later)%list ->
           request_fails (log ++ sent) req e ->
           res = inl e /\ later = [].

End Vocabulary.

(** The requests of the example call. *)
Definition ask_station (name : string) : request :=
  station_request (station_name_query name).
Definition ask_river (name : string) : request :=
  station_request (river_name_query name).

(** * The vocabulary of the further properties *)

(** Every character of [s] satisfies [p]. *)
Fixpoint all_chars (p : ascii -> bool) (s : string) : bool :=
  match s with
  | EmptyString => true
  | String c rest => p c && all_chars p rest
  end.

(** A digit or the dash. *)
Definition date_char (c : ascii) : bool :=
  let n := Z.of_nat (nat_of_ascii c) in
  ((48 <=? n) && (n <=? 57)) || (n =? 45).

(** What a caller can pass as [date] and the guard of lines 77-80 refuses. *)
Definition refused_date (d : date_arg) : Prop :=
  (exists s before after, d = DateStr s /\ s = before ++ "T" ++ after)
  \/ (exists dt, d = DateTimeObj dt).

(** Further worlds: a station list that is not JSON; one whose records
    carry no [station_no]; and a malformed list by station name with an
    empty one by river name. *)
Definition html_page : Environment :=
  Scenario.world [ (station_name_query "Pitnacree",
                    inr {| status_code := 200; body := None |}) ].

Definition unnumbered : Environment :=
  Scenario.world
    [ (station_name_query "Pitnacree",
       Scenario.ok (JList [ JList [JStr "station_name"; JStr "river_name"];
                            JList [JStr "Pitnacree"; JStr "Tay"] ])) ].

Definition garbled_then_empty : Environment :=
  Scenario.world [ (station_name_query "Pitnacree", Scenario.ok Scenario.short_row);
                   (river_name_query "Pitnacree", Scenario.ok Scenario.no_station) ].


(** The value of an upper-case hexadecimal digit. *)
Definition hex_value (c : ascii) : Z :=
  let n := Z.of_nat (nat_of_ascii c) in
  if n <? 58 then n - 48 else n - 55.

(** Reads back the first character [quote_plus] wrote at the head of a
    string, and what follows it. *)
Definition unquote_head (s : string) : option (ascii * string) :=
  match s with
  | EmptyString => None
  | String c rest =>
      if Ascii.eqb c "+" then Some (" "%char, rest)
      else if Ascii.eqb c "%" then
        match rest with
        | String h (String l rest') =>
            let b := 16 * hex_value h + hex_value l in
            if b <? 128 then Some (ascii_of_nat (Z.to_nat b), rest')
            else
              match rest' with
              | String _ (String h2 (String l2 rest'')) =>
                  let b2 := 16 * hex_value h2 + hex_value l2 in
                  Some (ascii_of_nat (Z.to_nat ((b - 192) * 64 + (b2 - 128))), rest'')
              | _ => None
              end
        | _ => None
        end
      else Some (c, rest)
  end.

(** [sep.join(parts)] *)
Fixpoint join (sep : string) (parts : list string) : string :=
  match parts with
  | [] => EmptyString
  | p :: rest =>
      match rest with
      | [] => p
      | _ => p ++ sep ++ join sep rest
      end
  end.

(** The number of occurrences of a character. *)
Fixpoint count_char (c : ascii) (s : string) : nat :=
  match s with
  | EmptyString => O
  | String c' rest => (if Ascii.eqb c' c then 1 else 0) + count_char c rest
  end.

Definition not_comma (c : ascii) : bool := negb (Ascii.eqb c ",").

(** The value [dict(zip(names, values))] binds to the name [k]: that of the
    last place at which [k] stands among the names. *)
Fixpoint last_binding (k : string) (names : list string) (values : list json)
  : option json :=
  match names, values with
  | n :: names', v :: values' =>
      match last_binding k names' values' with
      | Some w => Some w
      | None => if String.eqb n k then Some v else None
      end
  | _, _ => None
  end.

(** A world whose station list names [station_no] twice. *)
Definition twice_numbered : json :=
  JList [ JList [JStr "station_no"; JStr "station_name"; JStr "station_no"];
          JList [JStr "15018"; JStr "Pitnacree"; JStr "234150"] ].

Definition renumbered : Environment :=
  Scenario.world [ (station_name_query "Pitnacree", Scenario.ok twice_numbered) ].

(** A world without a station called Tay, whose records for the river Tay
    carry no [station_no]. *)
Definition unnumbered_record : Py.dict :=
  [ (JStr "station_name", JStr "Pitnacree"); (JStr "river_name", JStr "Tay") ].

Definition unnumbered_river : Environment :=
  Scenario.world
    [ (station_name_query "Tay", Scenario.ok Scenario.no_station);
      (river_name_query "Tay",
       Scenario.ok (JList [ JList [JStr "station_name"; JStr "river_name"];
                            JList [JStr "Pitnacree"; JStr "Tay"] ])) ].

(** A dict whose keys are all strings. *)
Definition string_keyed (record : Py.dict) : Prop :=
  forall k v, In (k, v) record -> exists n, k = JStr n.

(** A world whose values record names its first column [Time]. *)
Definition mislabelled : Environment :=
  Scenario.pitnacree
    (JList [ JDict [ ("columns", JStr "Time,Value,Quality Code");
                     ("data", JList [Scenario.midnight_row]) ] ]).

(** * Properties *)

(** ** Strings *)

Lemma prefix_app (p s : string) :
  prefix p s = true <-> exists q, s = p ++ q.
Proof.
  revert s; induction p as [|c p IH]; intros [|d s]; simpl.
  - split; eauto.
  - split; eauto.
  - split; [discriminate | intros [q Hq]; discriminate].
  - destruct (ascii_dec c d) as [Hcd|Hcd].
    + subst d. rewrite IH.
      split; intros [q Hq]; exists q; [now subst | now injection Hq].
    + split; [discriminate | intros [q Hq]; injection Hq; congruence].
Qed.

Lemma contains_app (needle hay : string) :
  PyStr.contains needle hay = true <-> exists p q, hay = p ++ needle ++ q.
Proof.
  induction hay as [|c hay IH]; cbn [PyStr.contains].
  - rewrite orb_false_r, prefix_app. split.
    + intros [q Hq]. now exists EmptyString, q.
    + intros [p [q Hq]]. destruct p; [now exists q | discriminate].
  - rewrite orb_true_iff, prefix_app, IH. split.
    + intros [[q Hq] | [p [q Hq]]].
      * now exists EmptyString, q.
      * exists (String c p), q. simpl. now rewrite Hq.
    + intros [p [q Hq]]. destruct p as [|d p]; simpl in Hq.
      * left. now exists q.
      * right. exists p, q. now injection Hq.
Qed.

(** ** The date guard: claims C1 and C8 *)

Section DateGuard.

Context {env : Environment}.
Variables (name parameter resolution : string) (session : option Session).

(** C1. A string [date] that contains the separator "T" makes
    [get_river_level] raise the invalid-argument [ValueError], and the
    request log is left as it was: nothing has been sent. *)
Theorem C1_timestamp_string_rejected (date : string) (log : list request) :
  (exists before after, date = before ++ "T" ++ after) ->
  get_river_level name (DateStr date) parameter resolution session log
  = (inl not_a_date, log).
Proof.
  intros Hsep. apply contains_app in Hsep.
  unfold get_river_level, bind, lift, checked_date.
  now rewrite Hsep.
Qed.

(** C8. A [datetime.datetime] passed as [date] makes [get_river_level]
    raise [TypeError], not the [ValueError] of the date guard, and again
    nothing has been sent. *)
Theorem C8_datetime_object_type_error (dt : datetime) (log : list request) :
  get_river_level name (DateTimeObj dt) parameter resolution session log
  = (inl TypeError, log)
  /\ inl TypeError <> (inl not_a_date : result DataFrame).
Proof.
  split; [reflexivity | discriminate].
Qed.

End DateGuard.

(** ** How a call unfolds *)

Section Runs.

Context {env : Environment}.

Lemma request_fails_exchange log req e :
  request_fails log req e ->
  exchange log req = inl e /\ isinstance_LookupError e = false.
Proof.
  unfold exchange.
  intros [[t [Ht ->]] | [resp [Hresp Hstatus]]].
  - now rewrite Ht.
  - rewrite Hresp, Hstatus. split; [reflexivity|].
    unfold raise_for_status in Hstatus.
    destruct (_ && _); [|discriminate]. now injection Hstatus as <-.
Qed.

Lemma answers_exchange log req data :
  answers log req data -> exchange log req = inr data.
Proof.
  intros [resp [Hresp [Hstatus Hbody]]].
  unfold exchange, json_of. now rewrite Hresp, Hstatus, Hbody.
Qed.

(** [_first_hit] sends one request and decodes what comes back. *)
Lemma first_hit_run u log :
  _first_hit u log
  = (match exchange log (station_request u) with
     | inl e => inl e
     | inr data => first_hit_record data
     end, (log ++ [station_request u])%list).
Proof.
  unfold _first_hit, bind, get, lift, exchange, station_request.
  destruct (server log _) as [t|resp]; [reflexivity|].
  destruct (raise_for_status resp) as [e|[]]; [reflexivity|].
  now destruct (json_of resp).
Qed.

Lemma first_hit_log u log res log' :
  _first_hit u log = (res, log') -> log' = (log ++ [station_request u])%list.
Proof. rewrite first_hit_run. now intros [= _ <-]. Qed.

(** The decoder raises nothing but its two [LookupError]s and [TypeError]. *)
Lemma first_hit_record_raises data e :
  first_hit_record data = inl e ->
  e = no_matching_records \/ e = row_header_mismatch \/ e = TypeError.
Proof.
  unfold first_hit_record.
  repeat match goal with
         | |- context [if ?b then _ else _] => destruct b
         | |- context [match ?o with Some _ => _ | None => _ end] => destruct o
         end; intros [= <-]; auto.
Qed.

(** Station resolution: one request, or two when the first attempt ends in
    a [LookupError]. *)
Lemma station_no_of_run name log :
  station_no_of name log
  = let r1 := station_request (station_name_query name) in
    let r2 := station_request (river_name_query name) in
    match _first_hit (station_name_query name) log with
    | (inr station, _) => (station_no_in station, (log ++ [r1])%list)
    | (inl e, _) =>
        if isinstance_LookupError e
        then match _first_hit (river_name_query name) (log ++ [r1])%list with
             | (inr station, _) => (station_no_in station, ((log ++ [r1]) ++ [r2])%list)
             | (inl e', _) => (inl e', ((log ++ [r1]) ++ [r2])%list)
             end
        else (inl e, (log ++ [r1])%list)
    end.
Proof.
  unfold station_no_of, bind, try_except_LookupError, station_no_in, ret, raise.
  cbv zeta.
  destruct (_first_hit (station_name_query name) log) as [[e|station] log1] eqn:H1.
  - apply first_hit_log in H1. subst log1.
    destruct (isinstance_LookupError e); [|reflexivity].
    destruct (_first_hit (river_name_query name) _) as [[e'|station] log2] eqn:H2;
      apply first_hit_log in H2; subst log2; [reflexivity|].
    now destruct (Py.getitem _ station).
  - apply first_hit_log in H1. subst log1.
    now destruct (Py.getitem _ station).
Qed.

(** The whole call: the date guard, the station, the values request and
    the table. *)
Lemma get_river_level_run name d parameter resolution session log :
  get_river_level name d parameter resolution session log
  = match checked_date d with
    | inl e => (inl e, log)
    | inr date =>
        match station_no_of name log with
        | (inl e, log1) => (inl e, log1)
        | (inr sta_no, log1) =>
            let req := values_request session sta_no parameter resolution date in
            (match exchange log1 req with
             | inl e => inl e
             | inr raw => values_frame name date raw
             end, (log1 ++ [req])%list)
        end
    end.
Proof.
  unfold get_river_level, bind, lift at 1.
  destruct (checked_date d) as [e|date]; [reflexivity|].
  destruct (station_no_of name log) as [[e|sta_no] log1]; [reflexivity|].
  unfold get, lift, exchange, values_request. cbv zeta.
  destruct (server log1 _) as [t|resp]; [reflexivity|].
  destruct (raise_for_status resp) as [e|[]]; [reflexivity|].
  now destruct (json_of resp).
Qed.

(** Once the values endpoint has answered, the call is the decoding of the
    answer. *)
Lemma get_river_level_receives name d parameter resolution session log date raw log' :
  receives_values name d parameter resolution session log date raw log' ->
  get_river_level name d parameter resolution session log
  = (values_frame name date raw, log').
Proof.
  intros [sta_no [log1 [Hdate [Hstation [Hanswer ->]]]]].
  rewrite get_river_level_run, Hdate, Hstation. cbv zeta.
  now rewrite (answers_exchange _ _ _ Hanswer).
Qed.

End Runs.

(** ** The station-list decoder: claim C5 *)

Section FirstHit.

Context {env : Environment}.

Lemma headed_body_has_header header row rest :
  ~ no_header_row (JList (JList header :: row :: rest)).
Proof.
  intros [[H|H] | [H | [[items [H Hlen]] | [first [tl [H Hfirst]]]]]].
  - discriminate.
  - discriminate.
  - now apply (H (JList header :: row :: rest)).
  - injection H as <-. simpl in Hlen. lia.
  - injection H as <- _. now apply (Hfirst header).
Qed.

(** The guard of line 31 is true exactly on the bodies without a header
    row and a first data row. *)
Lemma first_hit_guard data :
  negb (Py.truthy data)
  || negb (Py.isinstance_list data)
  || (Py.size data <? 2)%nat
  || negb (Py.isinstance_list (Py.item data 0)) = true
  <-> no_header_row data.
Proof.
  split.
  - intros Hguard.
    destruct data as [| | | | |items|]; try (right; left; intros items'; discriminate).
    destruct items as [|first [|row rest]].
    + left. now right.
    + right; right; left. exists [first]. split; [reflexivity | simpl; lia].
    + destruct first; try discriminate;
        right; right; right; eexists; eexists;
        (split; [reflexivity | intros header; discriminate]).
  - intros Hshape.
    destruct data as [| |n|bits|s|items|fields];
      try (unfold Py.isinstance_list; now destruct (negb (Py.truthy _))).
    destruct items as [|first [|row rest]]; try reflexivity.
    destruct first; try reflexivity.
    now apply headed_body_has_header in Hshape.
Qed.

Lemma first_hit_record_no_matching data :
  first_hit_record data = inl no_matching_records <-> no_header_row data.
Proof.
  rewrite <- first_hit_guard. unfold first_hit_record.
  destruct (_ || _ || _ || _).
  - tauto.
  - split; [|discriminate].
    repeat match goal with
           | |- context [if ?b then _ else _] => destruct b
           | |- context [match ?o with Some _ => _ | None => _ end] => destruct o
           end; discriminate.
Qed.

Lemma first_hit_record_headed header row rest :
  first_hit_record (JList (JList header :: row :: rest))
  = match Py.len row with
    | Some n =>
        if negb (n =? List.length header)%nat then inl row_header_mismatch
        else match Py.iter row with
             | Some values =>
                 match Py.dict_of (Py.zip header values) with
                 | Some record => inr record
                 | None => inl TypeError
                 end
             | None => inl TypeError
             end
    | None => inl TypeError
    end.
Proof. reflexivity. Qed.

Lemma len_iter v values :
  Py.iter v = Some values -> Py.len v = Some (List.length values).
Proof.
  destruct v; simpl; try discriminate; intros [= <-]; f_equal;
    rewrite ?length_map; try reflexivity.
  induction s; simpl; congruence.
Qed.

(** Building a dict from pairs whose keys are pairwise different strings
    keeps the pairs as they come. *)
Lemma setitem_fresh name v (d : Py.dict) :
  (forall k w, In (k, w) d -> exists n, k = JStr n /\ n <> name) ->
  Py.setitem (JStr name) v d = (d ++ [(JStr name, v)])%list.
Proof.
  induction d as [|[k w] d IH]; intros Hkeys; simpl; [reflexivity|].
  destruct (Hkeys k w (or_introl eq_refl)) as [n [-> Hn]]. simpl.
  destruct (String.eqb_spec n name); [contradiction|].
  f_equal. apply IH. intros k' w' Hin. apply (Hkeys k' w'). now right.
Qed.

Lemma fold_setitem_fresh names : forall values (acc : Py.dict),
  NoDup names ->
  (forall k w, In (k, w) acc -> exists n, k = JStr n /\ ~ In n names) ->
  fold_left (fun d kv => Py.setitem (fst kv) (snd kv) d)
            (combine (map JStr names) values) acc
  = (acc ++ combine (map JStr names) values)%list.
Proof.
  induction names as [|name names IH]; intros values acc Hnodup Hacc; simpl.
  - now rewrite app_nil_r.
  - destruct values as [|v values]; simpl; [now rewrite app_nil_r|].
    inversion Hnodup as [|? ? Hfresh Hrest]; subst.
    rewrite setitem_fresh.
    + rewrite IH; [now rewrite <- app_assoc | assumption |].
      intros k w Hin. apply in_app_or in Hin as [Hin | [[= <- <-] | []]].
      * destruct (Hacc k w Hin) as [n [-> Hn]]. exists n. split; [reflexivity|].
        intros Hn'. apply Hn. now right.
      * now exists name.
    + intros k w Hin. destruct (Hacc k w Hin) as [n [-> Hn]].
      exists n. split; [reflexivity|]. intros ->. apply Hn. now left.
Qed.

Lemma dict_of_string_keys names values :
  NoDup names ->
  Py.dict_of (Py.zip (map JStr names) values)
  = Some (combine (map JStr names) values).
Proof.
  intros Hnodup. unfold Py.dict_of, Py.zip.
  replace (forallb _ _) with true.
  - now rewrite fold_setitem_fresh.
  - symmetry. apply forallb_forall. intros [k w] Hin.
    apply in_combine_l, in_map_iff in Hin as [n [<- _]]. reflexivity.
Qed.

Lemma dict_of_hashable header values :
  forallb Py.hashable header = true ->
  exists record, Py.dict_of (Py.zip header values) = Some record.
Proof.
  intros Hhash. unfold Py.dict_of, Py.zip.
  replace (forallb _ (combine header values)) with true; [eauto|].
  symmetry. apply forallb_forall. intros [k w] Hin.
  apply in_combine_l in Hin.
  now apply (proj1 (forallb_forall _ _) Hhash).
Qed.

Lemma first_hit_mismatch u log header row rest n :
  answers log (station_request u) (JList (JList header :: row :: rest)) ->
  Py.len row = Some n -> n <> List.length header ->
  _first_hit u log = (inl row_header_mismatch, (log ++ [station_request u])%list).
Proof.
  intros Hanswer Hlen Hdiff. apply answers_exchange in Hanswer.
  rewrite first_hit_run, Hanswer, first_hit_record_headed, Hlen.
  now destruct (Nat.eqb_spec n (List.length header)).
Qed.

Variables (u : string) (log : list request) (data : json).

(** C5, as the code has it.  On a body [data] received for the URL:
    - "no matching records" is raised exactly when the body is empty, is
      not a list, has fewer than two elements or its first element is not
      a list;
    - "malformed response" is raised when the first data row has a length
      and it differs from the header's;
    - when the first data row can be iterated, is as long as the header,
      and every header field is hashable, the result is
      [dict(zip(header, row))], whatever rows follow; with pairwise
      different strings as header fields, that is each field paired with
      the value at its place in the first data row. *)
Theorem C5_first_hit_decoding :
  answers log (station_request u) data ->
  let sent := (log ++ [station_request u])%list in
  (_first_hit u log = (inl no_matching_records, sent) <-> no_header_row data)
  /\ (forall header row rest n,
        data = JList (JList header :: row :: rest) ->
        Py.len row = Some n -> n <> List.length header ->
        _first_hit u log = (inl row_header_mismatch, sent))
  /\ (forall header row rest values,
        data = JList (JList header :: row :: rest) ->
        Py.iter row = Some values ->
        List.length values = List.length header ->
        forallb Py.hashable header = true ->
        exists record,
          Py.dict_of (Py.zip header values) = Some record
          /\ _first_hit u log = (inr record, sent)
          /\ (forall names, header = map JStr names -> NoDup names ->
               record = combine header values)).
Proof.
  intros Hanswer sent. apply answers_exchange in Hanswer.
  rewrite first_hit_run, Hanswer. fold sent.
  split; [|split].
  - rewrite <- first_hit_record_no_matching.
    split; [now intros [= ->] | now intros ->].
  - intros header row rest n -> Hlen Hdiff.
    rewrite first_hit_record_headed, Hlen.
    now destruct (Nat.eqb_spec n (List.length header)).
  - intros header row rest values -> Hiter Hlen Hhash.
    rewrite first_hit_record_headed, (len_iter _ _ Hiter), Hiter, Hlen, Nat.eqb_refl.
    destruct (dict_of_hashable header values Hhash) as [record Hdict].
    exists record. rewrite Hdict. split; [reflexivity|]. split; [reflexivity|].
    intros names -> Hnodup.
    rewrite (dict_of_string_keys names values Hnodup) in Hdict.
    now injection Hdict.
Qed.

End FirstHit.

(** ** The values decoder: claims C6, C9, C3 and C2 *)

Section Values.

Context {env : Environment}.

Lemma recorded_body_has_data fields rest data :
  Py.lookup "data" fields = Some data ->
  ~ no_data_record (JList (JDict fields :: rest)).
Proof.
  intros Hdata [[H|H] | [H | [[first [tl [H Hfirst]]] | [fields' [tl [H Hnone]]]]]].
  - discriminate.
  - discriminate.
  - now apply (H (JDict fields :: rest)).
  - injection H as <- _. now apply (Hfirst fields).
  - injection H as <- _. congruence.
Qed.

(** The guard of line 119 is true exactly on the bodies without a record
    that has a [data] field. *)
Lemma values_guard raw :
  negb (Py.truthy raw)
  || negb (Py.isinstance_list raw)
  || negb (Py.isinstance_dict (Py.item raw 0))
  || negb (Py.has_key "data" (Py.item raw 0)) = true
  <-> no_data_record raw.
Proof.
  split.
  - intros Hguard.
    destruct raw as [| | | | |items|]; try (right; left; intros items'; discriminate).
    destruct items as [|first rest]; [left; now right|].
    destruct first as [| | | | | |fields];
      try (right; right; left; eexists; eexists;
           split; [reflexivity | intros fields'; discriminate]).
    right; right; right. exists fields, rest. split; [reflexivity|].
    simpl in Hguard. now destruct (Py.lookup "data" fields).
  - intros Hshape.
    destruct raw as [| |n|bits|s|items|fields];
      try (unfold Py.isinstance_list; now destruct (negb (Py.truthy _))).
    destruct items as [|first rest]; [reflexivity|].
    destruct first as [| | | | | |fields]; try reflexivity.
    simpl. destruct (Py.lookup "data" fields) as [data|] eqn:Hdata; [|reflexivity].
    now apply (recorded_body_has_data _ _ _ Hdata) in Hshape.
Qed.

Lemma recorded_shape raw :
  ~ no_data_record raw ->
  exists fields rest data,
    raw = JList (JDict fields :: rest) /\ Py.lookup "data" fields = Some data.
Proof.
  intros Hshape.
  destruct raw as [| | | | |items|];
    try (exfalso; apply Hshape; right; left; intros ?; discriminate).
  destruct items as [|first rest]; [exfalso; apply Hshape; left; now right|].
  destruct first as [| | | | | |fields];
    try (exfalso; apply Hshape; right; right; left; eexists; eexists;
         split; [reflexivity | intros ?; discriminate]).
  destruct (Py.lookup "data" fields) as [data|] eqn:Hdata; [eauto|].
  exfalso; apply Hshape; right; right; right; eauto.
Qed.

(** The decoding of a body whose first element is a record with [data]. *)
Lemma values_frame_record name date fields rest data :
  Py.lookup "data" fields = Some data ->
  values_frame name date (JList (JDict fields :: rest))
  = match Py.lookup "columns" fields with
    | None => inl (KeyError "columns")
    | Some (JStr text) =>
        match from_pandas (pd_DataFrame data (labels_of text)) with
        | inl e => inl e
        | inr df => indexed_by_timestamp name date df
        end
    | Some _ => inl (AttributeError "split")
    end.
Proof.
  intros Hdata. unfold values_frame. simpl. rewrite Hdata. simpl.
  destruct (Py.lookup "columns" fields) as [[]|]; reflexivity.
Qed.

Lemma from_pandas_raises {A : Type} (r : pandas_exn + A) e :
  from_pandas r = inl e -> exists p, e = PandasError p.
Proof. destruct r; intros [= <-]; eauto. Qed.

Lemma indexed_by_timestamp_raises name date df e :
  indexed_by_timestamp name date df = inl e ->
  e = no_level_values name date \/ exists p, e = PandasError p.
Proof.
  unfold indexed_by_timestamp, df_getitem, to_datetime_utc, df_setitem, df_set_index.
  destruct (df_empty df); [intros [= <-]; now left|].
  destruct (positions "Timestamp" (columns df) 0) as [|i [|j more]];
    try (intros [= <-]; right; eauto).
  destruct (pd_to_datetime _); simpl; [intros [= <-]; right; eauto|].
  destruct (_ =? _)%nat; simpl; [|intros [= <-]; right; eauto].
  destruct (positions _ _ _) as [|i' [|j' more']]; try discriminate;
    intros [= <-]; right; eauto.
Qed.

Lemma values_frame_malformed name date raw :
  values_frame name date raw = inl (malformed_values name date)
  <-> no_data_record raw.
Proof.
  rewrite <- values_guard. split.
  - intros Hraise.
    destruct (_ || _ || _ || _) eqn:Hguard; [reflexivity|exfalso].
    destruct (recorded_shape raw) as [fields [rest [data [-> Hdata]]]];
      [rewrite <- values_guard; congruence|].
    rewrite (values_frame_record _ _ _ _ _ Hdata) in Hraise.
    destruct (Py.lookup "columns" fields) as [[| | | |text| |]|]; try discriminate.
    destruct (from_pandas _) as [e|df] eqn:Hpd.
    + apply from_pandas_raises in Hpd as [p ->]. discriminate.
    + apply indexed_by_timestamp_raises in Hraise as [Hraise | [p Hraise]];
        discriminate.
  - intros Hguard. unfold values_frame. now rewrite Hguard.
Qed.

Lemma exchange_answers log req raw :
  exchange log req = inr raw -> answers log req raw.
Proof.
  unfold exchange, answers, json_of.
  destruct (server log req) as [t|resp]; [discriminate|].
  destruct (raise_for_status resp) as [e|[]] eqn:Hstatus; [discriminate|].
  destruct (body resp) as [v|] eqn:Hbody; [|discriminate].
  intros [= ->]. now exists resp.
Qed.

(** A call that returns a table has received a values body and decoded it. *)
Lemma get_river_level_returns name d parameter resolution session log df log' :
  get_river_level name d parameter resolution session log = (inr df, log') ->
  exists date raw,
    receives_values name d parameter resolution session log date raw log'
    /\ values_frame name date raw = inr df.
Proof.
  rewrite get_river_level_run.
  destruct (checked_date d) as [e|date] eqn:Hdate; [discriminate|].
  destruct (station_no_of name log) as [[e|sta_no] log1] eqn:Hstation; [discriminate|].
  cbv zeta.
  destruct (exchange log1 _) as [e|raw] eqn:Hexchange; [discriminate|].
  intros [= Hframe <-]. exists date, raw. split; [|exact Hframe].
  exists sta_no, log1. repeat split; try assumption.
  now apply exchange_answers.
Qed.

Lemma values_frame_returns name date raw df :
  values_frame name date raw = inr df ->
  exists fields rest text data df0,
    raw = JList (JDict fields :: rest)
    /\ Py.lookup "columns" fields = Some (JStr text)
    /\ Py.lookup "data" fields = Some data
    /\ pd_DataFrame data (labels_of text) = inr df0
    /\ indexed_by_timestamp name date df0 = inr df.
Proof.
  intros Hframe.
  destruct (recorded_shape raw) as [fields [rest [data [-> Hdata]]]].
  { intros Hshape. apply (values_frame_malformed name date) in Hshape. congruence. }
  rewrite (values_frame_record _ _ _ _ _ Hdata) in Hframe.
  destruct (Py.lookup "columns" fields) as [[| | | |text| |]|] eqn:Hcols;
    try discriminate.
  destruct (pd_DataFrame data (labels_of text)) as [e|df0] eqn:Hpd;
    [discriminate|].
  exists fields, rest, text, data, df0. now repeat split.
Qed.

(** The table returned: the Timestamp column of the table pandas built,
    converted, has replaced the positional labels of its rows. *)
Lemma indexed_by_timestamp_returns name date df0 df :
  indexed_by_timestamp name date df0 = inr df ->
  exists i instants,
    rows df0 <> []
    /\ positions "Timestamp" (columns df0) 0 = [i]
    /\ pd_to_datetime (column i df0) = inr instants
    /\ List.length instants = List.length (rows df0)
    /\ rows df
       = map (fun rv => (nth i (replace_nth i (snd rv) (snd (fst rv))) NaT,
                         remove_nth i (replace_nth i (snd rv) (snd (fst rv)))))
             (combine (rows df0) instants).
Proof.
  unfold indexed_by_timestamp, df_empty, df_getitem, to_datetime_utc, df_setitem.
  destruct (rows df0) as [|row0 more] eqn:Hrows;
    [now rewrite orb_true_r|].
  destruct (_ || _); [discriminate|].
  destruct (positions "Timestamp" (columns df0) 0) as [|i [|j others]] eqn:Hpos;
    try discriminate.
  destruct (pd_to_datetime (column i df0)) as [e|instants] eqn:Hconv;
    [discriminate|]. simpl from_pandas. cbv iota beta.
  destruct (List.length instants =? _)%nat eqn:Hlen; [|discriminate].
  unfold df_set_index. simpl columns. rewrite Hpos.
  intros [= <-]. exists i, instants. simpl rows.
  repeat split; try easy.
  - now apply Nat.eqb_eq.
  - now rewrite map_map.
Qed.

Lemma values_frame_rows name date raw df :
  values_frame name date raw = inr df -> rows df <> [].
Proof.
  intros Hframe.
  apply values_frame_returns in Hframe
    as [fields [rest [text [data [df0 [_ [_ [_ [_ Hindexed]]]]]]]]].
  apply indexed_by_timestamp_returns in Hindexed
    as [i [instants [Hrows [_ [_ [Hlen ->]]]]]].
  destruct (rows df0) as [|row0 more]; [contradiction|].
  destruct instants; [discriminate|]. discriminate.
Qed.

End Values.

Section ValuesClaims.

Context {env : Environment}.
Variables (name : string) (d : date_arg) (parameter resolution : string)
          (session : option Session) (log : list request).

(** C6. On every body [raw] that the values endpoint returns, the call
    raises the "malformed response" [LookupError] exactly when the body is
    empty, is not a list, its first element is not a record, or that
    record has no [data] field. *)
Theorem C6_malformed_values_response date raw log' :
  receives_values name d parameter resolution session log date raw log' ->
  get_river_level name d parameter resolution session log
  = (inl (malformed_values name date), log')
  <-> no_data_record raw.
Proof.
  intros Hvalues. rewrite (get_river_level_receives _ _ _ _ _ _ _ _ _ Hvalues).
  rewrite <- (values_frame_malformed name date raw).
  split; [now intros [= ->] | now intros ->].
Qed.

(** C9. On a body that passes the structural check, a first record without
    [columns] makes the call raise [KeyError], and one whose [columns] is
    not a string makes it raise [AttributeError]; neither is the
    "malformed response" error. *)
Theorem C9_columns_not_validated date raw log' fields rest data :
  receives_values name d parameter resolution session log date raw log' ->
  raw = JList (JDict fields :: rest) ->
  Py.lookup "data" fields = Some data ->
  (Py.lookup "columns" fields = None ->
   get_river_level name d parameter resolution session log
   = (inl (KeyError "columns"), log'))
  /\ (forall v, Py.lookup "columns" fields = Some v ->
                (forall text, v <> JStr text) ->
                get_river_level name d parameter resolution session log
                = (inl (AttributeError "split"), log'))
  /\ KeyError "columns" <> malformed_values name date
  /\ AttributeError "split" <> malformed_values name date.
Proof.
  intros Hvalues -> Hdata.
  rewrite (get_river_level_receives _ _ _ _ _ _ _ _ _ Hvalues).
  rewrite (values_frame_record _ _ _ _ _ Hdata).
  repeat split; try discriminate.
  - now intros ->.
  - intros v -> Hnot. destruct v; try reflexivity. now destruct (Hnot s).
Qed.

(** C3, as the code has it.  A call that returns a table returns one with
    at least one row; and, pandas building the table without rows from an
    empty list, a values record with a [columns] string and an empty
    [data] array makes the call raise "no data found". *)
Theorem C3_no_empty_table :
  (forall df log',
      get_river_level name d parameter resolution session log = (inr df, log') ->
      rows df <> [])
  /\ (builds_empty_table ->
      forall date raw log' fields rest text,
        receives_values name d parameter resolution session log date raw log' ->
        raw = JList (JDict fields :: rest) ->
        Py.lookup "columns" fields = Some (JStr text) ->
        Py.lookup "data" fields = Some (JList []) ->
        get_river_level name d parameter resolution session log
        = (inl (no_level_values name date), log')).
Proof.
  split.
  - intros df log' Hrun.
    apply get_river_level_returns in Hrun as [date [raw [_ Hframe]]].
    now apply values_frame_rows in Hframe.
  - intros Hpandas date raw log' fields rest text Hvalues -> Hcols Hdata.
    rewrite (get_river_level_receives _ _ _ _ _ _ _ _ _ Hvalues).
    rewrite (values_frame_record _ _ _ _ _ Hdata), Hcols, Hpandas.
    unfold from_pandas, indexed_by_timestamp, df_empty. simpl.
    now rewrite orb_true_r.
Qed.

End ValuesClaims.

(** ** The index of the returned table: claim C2 *)

Section Index.

Context {env : Environment}.

Lemma positions_bound label cols : forall k i,
  In i (positions label cols k) -> (k <= i < k + List.length cols)%nat.
Proof.
  induction cols as [|c cols IH]; intros k i; simpl; [contradiction|].
  destruct (String.eqb c label); simpl.
  - intros [<- | Hin]; [lia|]. apply IH in Hin. lia.
  - intros Hin. apply IH in Hin. lia.
Qed.

Lemma nth_replace_nth v : forall (r : list cell) i,
  (i < List.length r)%nat -> nth i (replace_nth i v r) NaT = v.
Proof.
  induction r as [|x r IH]; intros [|i] Hlt; simpl in *; try lia; [reflexivity|].
  apply IH. lia.
Qed.

Lemma relabelled_index i : forall (table : list (cell * list cell)) instants,
  (forall row, In row table -> (i < List.length (snd row))%nat) ->
  List.length instants = List.length table ->
  map (fun rv => nth i (replace_nth i (snd rv) (snd (fst rv))) NaT)
      (combine table instants)
  = instants.
Proof.
  induction table as [|row table IH]; intros [|t instants] Hwide Hlen;
    simpl in *; try discriminate; [reflexivity|].
  rewrite nth_replace_nth by (apply Hwide; now left).
  f_equal. apply IH; [|lia]. intros row' Hin. apply Hwide. now right.
Qed.

Lemma labelled_rows rs : forall k row,
  In row (labelled k rs) -> exists r, In r rs /\ snd row = map Obj r.
Proof.
  induction rs as [|r rs IH]; intros k row; simpl; [contradiction|].
  intros [<- | Hin].
  - exists r. split; [now left | reflexivity].
  - destruct (IH _ _ Hin) as [r' [Hr' Hrow]]. exists r'. split; [now right | assumption].
Qed.

Lemma column_of_labelled i rs : forall k,
  Forall (fun r => (i < List.length r)%nat) rs ->
  map (fun row => nth i (snd row) NaT) (labelled k rs) = upstream_column i rs.
Proof.
  induction rs as [|r rs IH]; intros k Hwide; simpl; [reflexivity|].
  inversion Hwide as [|? ? Hr Hrs]; subst.
  rewrite IH by assumption. f_equal.
  rewrite (nth_indep _ NaT (Obj JNull)) by now rewrite length_map.
  apply map_nth.
Qed.

Hypothesis pandas_strings : keeps_string_column.

Lemma values_frame_index name date raw df :
  values_frame name date raw = inr df -> index_is_converted_upstream df raw.
Proof.
  intros Hframe fields rest text rs i stamps -> Hcols Hdata Haligned Hpos Hstamps.
  apply values_frame_returns in Hframe
    as [fields' [rest' [text' [data [df0 [[= <- <-] [Hcols' [Hdata' [Hpd Hindexed]]]]]]]]].
  rewrite Hcols in Hcols'. injection Hcols' as <-.
  rewrite Hdata in Hdata'. injection Hdata' as <-.
  assert (Hi : (i < List.length (labels_of text))%nat).
  { assert (Hin : In i (positions "Timestamp" (labels_of text) 0))
      by (rewrite Hpos; now left).
    apply positions_bound in Hin. lia. }
  destruct (pandas_strings _ _ _ _ _ Haligned Hi Hstamps Hpd)
    as [Hlabels [Hwide Hcolumn]].
  apply indexed_by_timestamp_returns in Hindexed
    as [i' [converted [_ [Hpos' [Hconv [Hlen Hrows]]]]]].
  rewrite Hlabels, Hpos in Hpos'. injection Hpos' as <-.
  rewrite Hcolumn in Hconv.
  assert (Hcount : List.length (rows df0) = List.length rs).
  { apply (f_equal (@List.length cell)) in Hcolumn.
    apply (f_equal (@List.length json)) in Hstamps.
    unfold column in Hcolumn. rewrite !length_map in *. congruence. }
  exists converted. split; [exact Hconv|]. split; [congruence|].
  enough (Hindex : index df = converted)
    by (rewrite Hindex; repeat split; auto).
  unfold index. rewrite Hrows, map_map. simpl.
  apply relabelled_index; [|exact Hlen].
  intros row Hin. unfold rectangular in Hwide.
  rewrite (proj1 (Forall_forall _ _) Hwide row Hin), Hlabels. exact Hi.
Qed.

(** C2, as the code has it.  [pandas.DataFrame] keeping the strings under
    a label: a call that returns a table has received a values body; when
    the rows of that body are as wide as its labels, [Timestamp] is one of
    the labels and only one, and every row has a string under it, the index
    of the table is what [to_datetime] returns for those strings taken in
    the order of the body, an entry per row.  Nothing is sorted and nothing
    is dropped: the index is in order, and within a day, exactly when the
    converted timestamps of the body are. *)
Theorem C2_index_is_converted_upstream name d parameter resolution session log df log' :
  get_river_level name d parameter resolution session log = (inr df, log') ->
  exists date raw,
    receives_values name d parameter resolution session log date raw log'
    /\ index_is_converted_upstream df raw.
Proof.
  intros Hrun.
  apply get_river_level_returns in Hrun as [date [raw [Hvalues Hframe]]].
  exists date, raw. split; [assumption|].
  now apply values_frame_index with name date.
Qed.

End Index.

(** ** Station resolution and failures of requests: claims C4, C10 and C7 *)

Lemma append_assoc (a b c : string) : (a ++ b) ++ c = a ++ b ++ c.
Proof. induction a as [|x a IH]; simpl; [reflexivity | now rewrite IH]. Qed.

(** The values request of a station number that is a string, written out. *)
Lemma values_request_written {env : Environment} session number parameter resolution date :
  values_request session (JStr number) parameter resolution date
  = {| via := session;
       url := written_values_url number parameter resolution date;
       timeout := 60 |}.
Proof.
  unfold values_request, values_query, written_values_url, ts_path_of, _q.
  cbn [py_str]. f_equal.
  replace (Urllib.quote_plus _DEFAULT_RETURN_FIELDS)
    with "Timestamp%2CValue%2CQuality+Code" by reflexivity.
  generalize (Urllib.quote_plus ("1/" ++ number ++ "/" ++ parameter ++ "/" ++ resolution)).
  intros quoted. rewrite (append_assoc date). reflexivity.
Qed.

Section Resolution.

Context {env : Environment}.
Variables (name : string) (d : date_arg) (parameter resolution : string)
          (session : option Session) (log : list request).

Lemma fallback_run e log1 :
  _first_hit (station_name_query name) log = (inl e, log1) ->
  isinstance_LookupError e = true ->
  station_no_of name log
  = match _first_hit (river_name_query name) log1 with
    | (inr station, log2) => (station_no_in station, log2)
    | (inl e', log2) => (inl e', log2)
    end
  /\ log1 = (log ++ [ask_station name])%list.
Proof.
  intros Hfirst Hlookup.
  pose proof (first_hit_log _ _ _ _ Hfirst) as ->.
  split; [|reflexivity].
  rewrite station_no_of_run, Hfirst, Hlookup. cbv zeta.
  destruct (_first_hit (river_name_query name) _) as [[e'|station] log2] eqn:Hsecond;
    now rewrite (first_hit_log _ _ _ _ Hsecond).
Qed.

(** C4, as the code has it.  When the query by station name ends in "no
    matching records" and the query by river name returns a record that has
    a [station_no], resolution succeeds with that number and the values
    request follows, built from it: for a number that is a string, the
    request is for the URL whose [ts_path] is the quoted
    [1/<number>/<parameter>/<resolution>].  When the query by river name
    ends in "no matching records" too, that error is the outcome of the
    call. *)
Theorem C4_river_name_fallback date log1 log2 :
  checked_date d = inr date ->
  _first_hit (station_name_query name) log = (inl no_matching_records, log1) ->
  (forall station sta_no,
      _first_hit (river_name_query name) log1 = (inr station, log2) ->
      Py.getitem (JStr "station_no") station = Some sta_no ->
      let req := values_request session sta_no parameter resolution date in
      station_no_of name log = (inr sta_no, log2)
      /\ get_river_level name d parameter resolution session log
         = (match exchange log2 req with
            | inl e => inl e
            | inr raw => values_frame name date raw
            end, (log2 ++ [req])%list)
      /\ (forall number,
            sta_no = JStr number ->
            req = {| via := session;
                     url := written_values_url number parameter resolution date;
                     timeout := 60 |}))
  /\ (_first_hit (river_name_query name) log1 = (inl no_matching_records, log2) ->
      get_river_level name d parameter resolution session log
      = (inl no_matching_records, log2)).
Proof.
  intros Hdate Hfirst.
  destruct (fallback_run _ _ Hfirst eq_refl) as [Hstation _].
  split.
  - intros station sta_no Hsecond Hno req.
    rewrite Hsecond in Hstation. unfold station_no_in in Hstation.
    rewrite Hno in Hstation. split; [exact Hstation|]. split.
    + now rewrite get_river_level_run, Hdate, Hstation.
    + intros number ->. apply values_request_written.
  - intros Hsecond. rewrite Hsecond in Hstation.
    now rewrite get_river_level_run, Hdate, Hstation.
Qed.

(** C10. Any [LookupError] of the query by station name sends the call on
    to the query by river name: the request log goes on with that request.
    "No matching records" and "malformed response" are both
    [LookupError]s, so a first data row whose length differs from the
    header's triggers the fallback as well. *)
Theorem C10_fallback_on_any_lookup_error date :
  checked_date d = inr date ->
  (forall e log1,
      _first_hit (station_name_query name) log = (inl e, log1) ->
      isinstance_LookupError e = true ->
      exists res later,
        get_river_level name d parameter resolution session log
        = (res, (log1 ++ ask_river name :: later)%list))
  /\ (forall header row rest n,
        answers log (ask_station name) (JList (JList header :: row :: rest)) ->
        Py.len row = Some n -> n <> List.length header ->
        exists res later,
          get_river_level name d parameter resolution session log
          = (res, ((log ++ [ask_station name]) ++ ask_river name :: later)%list))
  /\ isinstance_LookupError row_header_mismatch = true
  /\ isinstance_LookupError no_matching_records = true.
Proof.
  intros Hdate.
  assert (Hany : forall e log1,
    _first_hit (station_name_query name) log = (inl e, log1) ->
    isinstance_LookupError e = true ->
    exists res later,
      get_river_level name d parameter resolution session log
      = (res, (log1 ++ ask_river name :: later)%list)).
  { intros e log1 Hfirst Hlookup.
    destruct (fallback_run _ _ Hfirst Hlookup) as [Hstation _].
    rewrite get_river_level_run, Hdate, Hstation.
    destruct (_first_hit (river_name_query name) log1) as [[e'|station] log2] eqn:Hsecond;
      apply first_hit_log in Hsecond; subst log2.
    - now exists (inl e'), [].
    - destruct (station_no_in station) as [e'|sta_no].
      + now exists (inl e'), [].
      + eexists. eexists [_]. cbv zeta. now rewrite <- app_assoc. }
  split; [exact Hany|]. split; [|split; reflexivity].
  intros header row rest n Hanswer Hlen Hdiff.
  apply (Hany row_header_mismatch); [|reflexivity].
  exact (first_hit_mismatch _ _ _ _ _ _ Hanswer Hlen Hdiff).
Qed.

End Resolution.

Section Failures.

Context {env : Environment}.

Lemma surfaces_ext {A : Type} (m m' : M A) :
  (forall log, m log = m' log) -> surfaces_failures m' -> surfaces_failures m.
Proof. intros Hext Hm' log res log' Hrun. rewrite Hext in Hrun. eauto. Qed.

Lemma surfaces_pure {A : Type} (r : result A) : surfaces_failures (lift r).
Proof.
  intros log res log' [= <- <-]. exists []. split; [now rewrite app_nil_r|].
  intros [|? ?] ? ? ? ?; discriminate.
Qed.

Lemma surfaces_fetch {A : Type} req (decode : json -> result A) :
  surfaces_failures (fetch_then req decode).
Proof.
  intros log res log' [= <- <-]. exists [req]. split; [reflexivity|].
  intros sent req' later e Hsplit Hfail.
  destruct sent as [|? [|? ?]]; try discriminate.
  injection Hsplit as <- <-. rewrite app_nil_r in Hfail.
  apply request_fails_exchange in Hfail as [-> _]. now split.
Qed.

(** A request that failed did not let its computation return, nor end in a
    [LookupError]. *)
Lemma failed_request_result {A : Type} (m : M A) log res log' reqs sent req later e :
  surfaces_failures m ->
  m log = (res, log') ->
  log' = (log ++ reqs)%list ->
  reqs = (sent ++ req :: later)%list ->
  request_fails (log ++ sent) req e ->
  res = inl e /\ later = [] /\ isinstance_LookupError e = false.
Proof.
  intros Hm Hrun Hlog Hsplit Hfail.
  destruct (Hm _ _ _ Hrun) as [reqs' [Hlog' Hlast]].
  rewrite Hlog in Hlog'. apply app_inv_head in Hlog'. subst reqs'.
  destruct (Hlast _ _ _ _ Hsplit Hfail) as [-> ->].
  repeat split. now apply request_fails_exchange in Hfail.
Qed.

Lemma sent_in_two (reqs1 reqs2 sent : list request) req later :
  (reqs1 ++ reqs2 = sent ++ req :: later)%list ->
  (exists mid, reqs1 = sent ++ req :: mid /\ later = mid ++ reqs2)%list
  \/ (exists mid, sent = reqs1 ++ mid /\ reqs2 = mid ++ req :: later)%list.
Proof.
  intros Hsplit.
  apply app_eq_app in Hsplit as [mid [[Hreqs1 Htail] | [Hsent Hreqs2]]].
  - destruct mid as [|req' mid]; simpl in Htail.
    + right. exists []. rewrite app_nil_r in *. now split.
    + injection Htail as <- ->. left. now exists mid.
  - right. now exists mid.
Qed.

(** One computation after another: the first did not end on a failed
    request, the second starts where the first stopped. *)
Lemma surfaces_sequel {A B : Type} (m : M A) (h : M B) log res1 reqs1 res log' :
  surfaces_failures m -> surfaces_failures h ->
  m log = (res1, (log ++ reqs1)%list) ->
  (forall e, res1 = inl e -> isinstance_LookupError e = true) ->
  h (log ++ reqs1)%list = (res, log') ->
  exists reqs,
    log' = (log ++ reqs)%list
    /\ forall sent req later e,
         reqs = (sent ++ req :: later)%list ->
         request_fails (log ++ sent) req e ->
         res = inl e /\ later = [].
Proof.
  intros Hm Hh Hrun Hres1 Hrest.
  destruct (Hh _ _ _ Hrest) as [reqs2 [-> Hlast]].
  exists (reqs1 ++ reqs2)%list. split; [now rewrite app_assoc|].
  intros sent req later e Hsplit Hfail.
  apply sent_in_two in Hsplit as [[mid [Hreqs1 _]] | [mid [-> Hreqs2]]].
  - destruct (failed_request_result m log res1 _ reqs1 sent req mid e
                Hm Hrun eq_refl Hreqs1 Hfail) as [Hres [_ Hnot]].
    apply Hres1 in Hres. congruence.
  - rewrite app_assoc in Hfail. now apply (Hlast mid req later e).
Qed.

Lemma surfaces_raised {A B : Type} (m : M A) log e log' :
  surfaces_failures m -> m log = (inl e, log') ->
  exists reqs,
    log' = (log ++ reqs)%list
    /\ forall sent req later e',
         reqs = (sent ++ req :: later)%list ->
         request_fails (log ++ sent) req e' ->
         (inl e : result B) = inl e' /\ later = [].
Proof.
  intros Hm Hrun.
  destruct (Hm _ _ _ Hrun) as [reqs [-> Hlast]].
  exists reqs. split; [reflexivity|].
  intros sent req later e' Hsplit Hfail.
  destruct (Hlast _ _ _ _ Hsplit Hfail) as [[= ->] ->]. now split.
Qed.

Lemma surfaces_bind {A B : Type} (m : M A) (k : A -> M B) :
  surfaces_failures m -> (forall a, surfaces_failures (k a)) ->
  surfaces_failures (bind m k).
Proof.
  intros Hm Hk log res log'. unfold bind.
  destruct (m log) as [[e|a] log1] eqn:Hrun.
  - intros [= <- <-]. now apply surfaces_raised with m.
  - intros Hrest.
    destruct (Hm _ _ _ Hrun) as [reqs1 [-> _]].
    apply (surfaces_sequel m (k a) log (inr a) reqs1); auto.
    discriminate.
Qed.

Lemma surfaces_try {A : Type} (m handler : M A) :
  surfaces_failures m -> surfaces_failures handler ->
  surfaces_failures (try_except_LookupError m handler).
Proof.
  intros Hm Hh log res log'. unfold try_except_LookupError.
  destruct (m log) as [[e|a] log1] eqn:Hrun.
  - destruct (isinstance_LookupError e) eqn:Hlookup.
    + intros Hrest.
      destruct (Hm _ _ _ Hrun) as [reqs1 [-> _]].
      apply (surfaces_sequel m handler log (inl e) reqs1); auto.
      now intros e' [= <-].
    + intros [= <- <-]. exact (Hm _ _ _ Hrun).
  - intros [= <- <-]. exact (Hm _ _ _ Hrun).
Qed.

Lemma first_hit_fetch u log :
  _first_hit u log = fetch_then (station_request u) first_hit_record log.
Proof. apply first_hit_run. Qed.

Lemma surfaces_first_hit u : surfaces_failures (_first_hit u).
Proof.
  apply surfaces_ext with (fetch_then (station_request u) first_hit_record).
  - apply first_hit_fetch.
  - apply surfaces_fetch.
Qed.

Lemma surfaces_station_no_of name : surfaces_failures (station_no_of name).
Proof.
  unfold station_no_of. apply surfaces_bind.
  - apply surfaces_try; apply surfaces_first_hit.
  - intros station. destruct (Py.getitem _ station); apply surfaces_pure.
Qed.

Lemma surfaces_get_river_level name d parameter resolution session :
  surfaces_failures (get_river_level name d parameter resolution session).
Proof.
  unfold get_river_level. apply surfaces_bind; [apply surfaces_pure|].
  intros date. cbv zeta. apply surfaces_bind; [apply surfaces_station_no_of|].
  intros sta_no.
  apply surfaces_ext
    with (fetch_then (values_request session sta_no parameter resolution date)
                     (values_frame name date)).
  - intros log. unfold fetch_then, bind, get, lift, exchange, values_request.
    destruct (server log _) as [t|resp]; [reflexivity|].
    destruct (raise_for_status resp) as [e|[]]; [reflexivity|].
    now destruct (json_of resp).
  - apply surfaces_fetch.
Qed.

(** C7. A request that fails in transport or by its status ends the
    computation that sent it: in [_first_hit] and in [get_river_level],
    the failed request is the last one sent and its exception is the
    result, as [requests] raised it.  In particular, when the query by
    station name fails so, the call ends there with that exception and the
    query by river name is not sent. *)
Theorem C7_request_failures_propagate name d parameter resolution session :
  (forall u, surfaces_failures (_first_hit u))
  /\ surfaces_failures (get_river_level name d parameter resolution session)
  /\ (forall log date e,
        checked_date d = inr date ->
        request_fails log (station_request (station_name_query name)) e ->
        get_river_level name d parameter resolution session log
        = (inl e, (log ++ [station_request (station_name_query name)])%list)).
Proof.
  split; [exact surfaces_first_hit|].
  split; [apply surfaces_get_river_level|].
  intros log date e Hdate Hfail.
  apply request_fails_exchange in Hfail as [Hexchange Hnot].
  rewrite get_river_level_run, Hdate, station_no_of_run, first_hit_run, Hexchange.
  cbv zeta. now rewrite Hnot.
Qed.

End Failures.

(** * The claims on the example call

    The module run in the worlds of [Scenario]: each theorem that has
    hypotheses is applied once, and each claim that the code does not meet as
    stated is shown to fail. *)

Section ScenarioFacts.

Variable routes : list Scenario.route.

Lemma aligned_rows_of (width : nat) rs :
  Forall (fun r : list json => List.length r = width) rs ->
  Scenario.aligned_rows width (map JList rs) = Some rs.
Proof.
  induction 1 as [|r rs Hr _ IH]; simpl; [reflexivity|].
  now rewrite Hr, Nat.eqb_refl, IH.
Qed.

Lemma world_builds_aligned_rows :
  builds_aligned_rows (env := Scenario.world routes).
Proof.
  intros cols rs Haligned. simpl. unfold Scenario.rows_frame.
  now rewrite aligned_rows_of.
Qed.

Lemma world_builds_empty_table :
  builds_empty_table (env := Scenario.world routes).
Proof. intros cols. reflexivity. Qed.

Lemma world_keeps_string_column :
  keeps_string_column (env := Scenario.world routes).
Proof.
  intros cols rs i stamps df0 Haligned Hi Hstamps. simpl.
  unfold Scenario.rows_frame. rewrite aligned_rows_of by assumption.
  intros [= <-]. split; [reflexivity|]. split.
  - unfold rectangular, frame_of_rows. simpl.
    apply Forall_forall. intros row Hin.
    apply labelled_rows in Hin as [r [Hr ->]].
    rewrite length_map. exact (proj1 (Forall_forall _ _) Haligned r Hr).
  - unfold column, frame_of_rows. simpl.
    rewrite column_of_labelled.
    + unfold upstream_column.
      rewrite <- (map_map (fun r => nth i r JNull) Obj), Hstamps.
      now rewrite map_map.
    + apply Forall_forall. intros r Hr.
      now rewrite (proj1 (Forall_forall _ _) Haligned r Hr).
Qed.

End ScenarioFacts.

(** In the world [pitnacree values], the example call receives [values]
    from the values endpoint. *)
Lemma pitnacree_receives values :
  receives_values (env := Scenario.pitnacree values)
    "Pitnacree" (DateStr "2024-01-01") default_parameter default_resolution None []
    "2024-01-01" values [ask_station "Pitnacree"; Scenario.fetch_values].
Proof.
  exists (JStr "15018"), [ask_station "Pitnacree"].
  split; [reflexivity|]. split; [reflexivity|]. split; [|reflexivity].
  eexists. split; [reflexivity|]. split; reflexivity.
Qed.

(** C1 at the timestamp of the specification's example. *)
Lemma C1_timestamp_string_rejected_witness :
  (exists before after, "2024-01-01T00:00:00" = before ++ "T" ++ after)
  /\ Scenario.call (env := Scenario.unavailable) "Pitnacree" "2024-01-01T00:00:00"
     = (inl not_a_date, []).
Proof.
  split.
  - now exists "2024-01-01", "00:00:00".
  - apply C1_timestamp_string_rejected. now exists "2024-01-01", "00:00:00".
Defined.

(** C2 in the world where the station is found under the river name: the
    index is the two timestamps of the body, converted, in its order. *)
Lemma C2_index_is_converted_upstream_witness :
  let env := Scenario.tay Scenario.station_list in
  let sent := [ask_station "Tay"; ask_river "Tay"; Scenario.fetch_values] in
  keeps_string_column
  /\ Scenario.call "Tay" "2024-01-01" = (inr Scenario.two_readings, sent)
  /\ exists date raw,
       receives_values "Tay" (DateStr "2024-01-01")
                       default_parameter default_resolution None [] date raw sent
       /\ index_is_converted_upstream Scenario.two_readings raw.
Proof.
  cbv zeta.
  assert (Hrun : Scenario.call (env := Scenario.tay Scenario.station_list)
                   "Tay" "2024-01-01"
                 = (inr Scenario.two_readings,
                    [ask_station "Tay"; ask_river "Tay"; Scenario.fetch_values]))
    by (vm_compute; reflexivity).
  split; [apply world_keeps_string_column|].
  split; [exact Hrun|].
  exact (C2_index_is_converted_upstream (world_keeps_string_column _)
           _ _ _ _ _ _ _ _ Hrun).
Defined.

(** C2 as stated fails when the body lists a reading of the next day before
    the reading of midnight: the call returns a table whose index runs
    backwards and starts outside the requested day. *)
Lemma C2_counterexample :
  let env := Scenario.pitnacree
               (Scenario.values_of [Scenario.next_day_row; Scenario.midnight_row]) in
  exists df log',
    Scenario.call "Pitnacree" "2024-01-01" = (inr df, log')
    /\ index df = [Instant 1704154500000000000; Instant 1704067200000000000]
    /\ ~ nondecreasing (index df)
    /\ ~ Forall (within_day "2024-01-01") (index df).
Proof.
  cbv zeta. eexists. eexists.
  split; [vm_compute; reflexivity|].
  split; [reflexivity|]. split.
  - intros Hsorted.
    specialize (Hsorted 0%nat 1%nat _ _ (Nat.lt_0_1) eq_refl eq_refl).
    simpl in Hsorted. lia.
  - intros Hday. inversion Hday as [|? ? [t0 [ns [Hmid [Hns Hrange]]]] _]; subst.
    vm_compute in Hmid. injection Hmid as <-. injection Hns as <-. lia.
Qed.

(** C3 on a values record with its columns and no row. *)
Lemma C3_no_empty_table_witness :
  let env := Scenario.pitnacree (Scenario.values_of []) in
  let sent := [ask_station "Pitnacree"; Scenario.fetch_values] in
  builds_empty_table
  /\ receives_values "Pitnacree" (DateStr "2024-01-01")
                     default_parameter default_resolution None []
                     "2024-01-01" (Scenario.values_of []) sent
  /\ Scenario.call "Pitnacree" "2024-01-01"
     = (inl (no_level_values "Pitnacree" "2024-01-01"), sent).
Proof.
  cbv zeta.
  split; [apply world_builds_empty_table|].
  split; [apply pitnacree_receives|].
  exact (proj2 (C3_no_empty_table _ _ _ _ _ _)
           (world_builds_empty_table _) _ _ _
           [ ("ts_id", JStr "58085010");
             ("columns", JStr "Timestamp,Value,Quality Code");
             ("data", JList []) ] [] "Timestamp,Value,Quality Code"
           (pitnacree_receives _) eq_refl eq_refl eq_refl).
Defined.

(** C3 as stated fails on a values record with an empty [data] array and no
    [columns]: the call raises [KeyError], not "no data found". *)
Lemma C3_counterexample :
  let raw := JList [JDict [("data", JList [])]] in
  let env := Scenario.pitnacree raw in
  let sent := [ask_station "Pitnacree"; Scenario.fetch_values] in
  receives_values "Pitnacree" (DateStr "2024-01-01")
                  default_parameter default_resolution None [] "2024-01-01" raw sent
  /\ Scenario.call "Pitnacree" "2024-01-01" = (inl (KeyError "columns"), sent)
  /\ KeyError "columns" <> no_level_values "Pitnacree" "2024-01-01".
Proof.
  cbv zeta. split; [apply pitnacree_receives|].
  split; [reflexivity | discriminate].
Qed.

(** C4 on the name "Tay": no station of that name, the gauge at Pitnacree
    under the river of that name, and its number in the values request; and
    "no matching records" when the river is unknown too. *)
Lemma C4_river_name_fallback_witness :
  (let env := Scenario.tay Scenario.station_list in
   let values :=
     {| via := None;
        url := "https://timeseries.sepa.org.uk/KiWIS/KiWIS?service=kisters&type=queryServices&datasource=0&request=getTimeseriesValues&ts_path=1%2F15018%2FSG%2F15m.Cmd&from=2024-01-01&to=2024-01-01T23:59:59&returnfields=Timestamp%2CValue%2CQuality+Code&format=json";
        timeout := 60 |} in
   checked_date (DateStr "2024-01-01") = inr "2024-01-01"
   /\ _first_hit (station_name_query "Tay") []
      = (inl no_matching_records, [ask_station "Tay"])
   /\ _first_hit (river_name_query "Tay") [ask_station "Tay"]
      = (inr Scenario.pitnacree_record, [ask_station "Tay"; ask_river "Tay"])
   /\ Py.getitem (JStr "station_no") Scenario.pitnacree_record = Some (JStr "15018")
   /\ station_no_of "Tay" []
      = (inr (JStr "15018"), [ask_station "Tay"; ask_river "Tay"])
   /\ Scenario.call "Tay" "2024-01-01"
      = (inr Scenario.two_readings, [ask_station "Tay"; ask_river "Tay"; values]))
  /\ (let env := Scenario.tay Scenario.no_station in
      _first_hit (river_name_query "Tay") [ask_station "Tay"]
      = (inl no_matching_records, [ask_station "Tay"; ask_river "Tay"])
      /\ Scenario.call "Tay" "2024-01-01"
         = (inl no_matching_records, [ask_station "Tay"; ask_river "Tay"])).
Proof.
  cbv zeta. split.
  - do 4 (split; [reflexivity|]).
    destruct (C4_river_name_fallback (env := Scenario.tay Scenario.station_list)
                "Tay" (DateStr "2024-01-01") default_parameter default_resolution None []
                "2024-01-01" [ask_station "Tay"] [ask_station "Tay"; ask_river "Tay"]
                eq_refl eq_refl) as [Hfound _].
    destruct (Hfound Scenario.pitnacree_record (JStr "15018") eq_refl eq_refl)
      as [Hstation [Hcall Hwritten]].
    split; [exact Hstation|].
    rewrite (Hwritten "15018" eq_refl) in Hcall.
    etransitivity; [exact Hcall | vm_compute; reflexivity].
  - split; [reflexivity|].
    destruct (C4_river_name_fallback (env := Scenario.tay Scenario.no_station)
                "Tay" (DateStr "2024-01-01") default_parameter default_resolution None []
                "2024-01-01" [ask_station "Tay"] [ask_station "Tay"; ask_river "Tay"]
                eq_refl eq_refl) as [_ Hnone].
    exact (Hnone eq_refl).
Defined.

(** C4 as stated fails when the record found under the river name has no
    [station_no]: the query by station name ends in "no matching records",
    the query by river name returns a record, and the call raises
    [KeyError] without a values request. *)
Lemma C4_counterexample :
  let env := unnumbered_river in
  _first_hit (station_name_query "Tay") []
  = (inl no_matching_records, [ask_station "Tay"])
  /\ _first_hit (river_name_query "Tay") [ask_station "Tay"]
     = (inr unnumbered_record, [ask_station "Tay"; ask_river "Tay"])
  /\ Py.getitem (JStr "station_no") unnumbered_record = None
  /\ Scenario.call "Tay" "2024-01-01"
     = (inl (KeyError "station_no"), [ask_station "Tay"; ask_river "Tay"]).
Proof. cbv zeta. repeat split. Qed.

(** C5 on the station list of Pitnacree: the record of its first row. *)
Lemma C5_first_hit_decoding_witness :
  let env := Scenario.pitnacree JNull in
  let u := station_name_query "Pitnacree" in
  answers [] (station_request u) Scenario.station_list
  /\ _first_hit u [] = (inr Scenario.pitnacree_record, [station_request u]).
Proof.
  cbv zeta.
  assert (Hanswer : answers (env := Scenario.pitnacree JNull) []
                      (station_request (station_name_query "Pitnacree"))
                      Scenario.station_list).
  { eexists. split; [reflexivity|]. split; reflexivity. }
  split; [exact Hanswer|].
  destruct (C5_first_hit_decoding _ _ _ Hanswer) as [_ [_ Hrecord]].
  destruct (Hrecord _ _ _ _ eq_refl eq_refl eq_refl eq_refl) as [record [Hdict [Hrun _]]].
  vm_compute in Hdict. injection Hdict as <-. exact Hrun.
Defined.
(** C5 as stated fails on a body whose first data row has no length: the
    body has a header and a second element, so it is not "no matching
    records"; the row is a number, so no length differs from the header's;
    yet nothing is returned, the decoder raises [TypeError]. *)
Lemma C5_counterexample :
  let data := JList [JList [JStr "station_no"]; JInt 5] in
  let u := station_name_query "Pitnacree" in
  let env := Scenario.world [(u, Scenario.ok data)] in
  answers [] (station_request u) data
  /\ ~ no_header_row data
  /\ Py.len (JInt 5) = None
  /\ _first_hit u [] = (inl TypeError, [station_request u]).
Proof.
  cbv zeta. split; [|split; [|split]].
  - eexists. split; [reflexivity|]. split; reflexivity.
  - apply headed_body_has_header.
  - reflexivity.
  - reflexivity.
Qed.

(** C6 on a values record without [data]. *)
Lemma C6_malformed_values_response_witness :
  let raw := JList [JDict [("columns", JStr "Timestamp,Value,Quality Code")]] in
  let env := Scenario.pitnacree raw in
  let sent := [ask_station "Pitnacree"; Scenario.fetch_values] in
  receives_values "Pitnacree" (DateStr "2024-01-01")
                  default_parameter default_resolution None [] "2024-01-01" raw sent
  /\ no_data_record raw
  /\ Scenario.call "Pitnacree" "2024-01-01"
     = (inl (malformed_values "Pitnacree" "2024-01-01"), sent).
Proof.
  cbv zeta.
  assert (Hshape : no_data_record
                     (JList [JDict [("columns", JStr "Timestamp,Value,Quality Code")]])).
  { right; right; right. eexists. eexists. split; reflexivity. }
  split; [apply pitnacree_receives|]. split; [exact Hshape|].
  exact (proj2 (C6_malformed_values_response _ _ _ _ _ _ _ _ _
                  (pitnacree_receives _)) Hshape).
Defined.

(** C7 when the station list answers 503: the call ends with that
    [HTTPError] after one request. *)
Lemma C7_request_failures_propagate_witness :
  let env := Scenario.unavailable in
  checked_date (DateStr "2024-01-01") = inr "2024-01-01"
  /\ request_fails [] (ask_station "Pitnacree") (RequestException (HTTPError 503))
  /\ Scenario.call "Pitnacree" "2024-01-01"
     = (inl (RequestException (HTTPError 503)), [ask_station "Pitnacree"]).
Proof.
  cbv zeta.
  assert (Hfail : request_fails (env := Scenario.unavailable) []
                    (ask_station "Pitnacree") (RequestException (HTTPError 503))).
  { right. eexists. split; reflexivity. }
  split; [reflexivity|]. split; [exact Hfail|].
  exact (proj2 (proj2 (C7_request_failures_propagate
                         "Pitnacree" (DateStr "2024-01-01")
                         default_parameter default_resolution None))
           [] "2024-01-01" _ eq_refl Hfail).
Defined.

(** C9 on a values record with rows and no [columns]. *)
Lemma C9_columns_not_validated_witness :
  let raw := JList [JDict [("data", JList [Scenario.midnight_row])]] in
  let env := Scenario.pitnacree raw in
  let sent := [ask_station "Pitnacree"; Scenario.fetch_values] in
  receives_values "Pitnacree" (DateStr "2024-01-01")
                  default_parameter default_resolution None [] "2024-01-01" raw sent
  /\ Py.lookup "data" [("data", JList [Scenario.midnight_row])]
     = Some (JList [Scenario.midnight_row])
  /\ Py.lookup "columns" [("data", JList [Scenario.midnight_row])] = None
  /\ Scenario.call "Pitnacree" "2024-01-01" = (inl (KeyError "columns"), sent).
Proof.
  cbv zeta.
  split; [apply pitnacree_receives|]. split; [reflexivity|]. split; [reflexivity|].
  exact (proj1 (C9_columns_not_validated _ _ _ _ _ _ _ _ _
                  [("data", JList [Scenario.midnight_row])] []
                  (JList [Scenario.midnight_row])
                  (pitnacree_receives _) eq_refl eq_refl) eq_refl).
Defined.

(** C10 when the first station list has a short row: the query by river
    name is sent, and the call goes on to the values. *)
Lemma C10_fallback_on_any_lookup_error_witness :
  let env := Scenario.garbled in
  checked_date (DateStr "2024-01-01") = inr "2024-01-01"
  /\ _first_hit (station_name_query "Pitnacree") []
     = (inl row_header_mismatch, [ask_station "Pitnacree"])
  /\ isinstance_LookupError row_header_mismatch = true
  /\ (exists res later,
         Scenario.call "Pitnacree" "2024-01-01"
         = (res, ([ask_station "Pitnacree"] ++ ask_river "Pitnacree" :: later)%list))
  /\ snd (Scenario.call "Pitnacree" "2024-01-01")
     = [ask_station "Pitnacree"; ask_river "Pitnacree"; Scenario.fetch_values].
Proof.
  cbv zeta. repeat (split; [reflexivity|]). split; [|reflexivity].
  exact (proj1 (C10_fallback_on_any_lookup_error (env := Scenario.garbled)
                  "Pitnacree" (DateStr "2024-01-01")
                  default_parameter default_resolution None [] "2024-01-01" eq_refl)
           row_header_mismatch [ask_station "Pitnacree"] eq_refl eq_refl).
Defined.

(** * Further properties of the module *)

(** ** The date guard *)

Lemma all_chars_app p (a b : string) :
  all_chars p (a ++ b) = all_chars p a && all_chars p b.
Proof.
  induction a as [|c a IH]; simpl; [reflexivity|].
  now rewrite IH, andb_assoc.
Qed.

Lemma all_chars_no_T s :
  all_chars date_char s = true -> PyStr.contains "T" s = false.
Proof.
  induction s as [|c s IH]; [reflexivity|].
  cbn [all_chars PyStr.contains]. intros Hall.
  apply andb_prop in Hall as [Hc Hs]. rewrite (IH Hs), orb_false_r.
  cbn [prefix]. destruct (ascii_dec "T" c) as [<-|_]; [discriminate Hc|reflexivity].
Qed.

Lemma uint_date_chars d :
  all_chars date_char (NilEmpty.string_of_uint d) = true.
Proof. induction d; simpl; auto. Qed.

Lemma nilzero_date_chars d :
  all_chars date_char (NilZero.string_of_uint d) = true.
Proof.
  destruct d; try reflexivity;
    match goal with
    | |- all_chars _ (NilZero.string_of_uint ?u) = true => exact (uint_date_chars u)
    end.
Qed.

Lemma of_Z_date_chars n : all_chars date_char (PyStr.of_Z n) = true.
Proof.
  unfold PyStr.of_Z, NilZero.string_of_int.
  destruct (Z.to_int n) as [d|d]; [|cbn [all_chars]]; now rewrite nilzero_date_chars.
Qed.

Lemma zfill_date_chars width n : all_chars date_char (PyStr.zfill width n) = true.
Proof.
  unfold PyStr.zfill. rewrite all_chars_app, of_Z_date_chars, andb_true_r.
  induction (width - _)%nat; simpl; auto.
Qed.

Lemma isoformat_date_chars d : all_chars date_char (isoformat d) = true.
Proof.
  unfold isoformat. now rewrite !all_chars_app, !zfill_date_chars.
Qed.

Section DateObjects.

Context {env : Environment}.
Variables (name parameter resolution : string) (session : option Session).

(** X1. A [datetime.date] is never refused: it passes the guard as its ISO
    text, so the call on the object is the call on that text. *)
Theorem X1_date_object_is_its_iso_text (d : date) (log : list request) :
  checked_date (DateObj d) = inr (isoformat d)
  /\ get_river_level name (DateObj d) parameter resolution session log
     = get_river_level name (DateStr (isoformat d)) parameter resolution session log.
Proof.
  assert (Hpass : forall s, s = isoformat d -> checked_date (DateStr s) = inr s).
  { intros s ->. unfold checked_date.
    now rewrite (all_chars_no_T _ (isoformat_date_chars d)). }
  split; [exact (Hpass _ eq_refl)|].
  unfold get_river_level, bind, lift.
  replace (checked_date (DateObj d)) with (checked_date (DateStr (isoformat d)));
    reflexivity.
Qed.

End DateObjects.

(** ** The requests and the errors of a call *)

Section Calls.

Context {env : Environment}.
Variables (name : string) (d : date_arg) (parameter resolution : string)
          (session : option Session) (log : list request).

Lemma checked_date_raises e :
  checked_date d = inl e -> e = not_a_date \/ e = TypeError.
Proof.
  unfold checked_date. destruct d as [s|d0|dt].
  - destruct (PyStr.contains "T" s); intros [= <-]; auto.
  - destruct (PyStr.contains "T" (isoformat d0)); intros [= <-]; auto.
  - intros [= <-]; auto.
Qed.

Lemma checked_date_refuses :
  (exists e, checked_date d = inl e) <-> refused_date d.
Proof.
  unfold refused_date. split.
  - intros [e He]. destruct d as [s|d0|dt].
    + left. unfold checked_date in He.
      destruct (PyStr.contains "T" s) eqn:HT; [|discriminate].
      apply contains_app in HT as [before [after ->]]. eauto.
    + unfold checked_date in He.
      now rewrite (all_chars_no_T _ (isoformat_date_chars d0)) in He.
    + right. eauto.
  - intros [[s [before [after [-> Hs]]]] | [dt ->]].
    + exists not_a_date. unfold checked_date.
      replace (PyStr.contains "T" s) with true; [reflexivity|].
      symmetry. apply contains_app. eauto.
    + now exists TypeError.
Qed.

Lemma exchange_raises lg req e :
  exchange lg req = inl e -> exists r, e = RequestException r.
Proof.
  unfold exchange, raise_for_status, json_of.
  destruct (server lg req) as [t|resp]; [intros [= <-]; eauto|].
  destruct (_ && _); [intros [= <-]; eauto|].
  destruct (body resp); [discriminate | intros [= <-]; eauto].
Qed.

(** The requests of station resolution and what it can raise. *)
Lemma station_no_of_cases res log1 :
  station_no_of name log = (res, log1) ->
  (log1 = (log ++ [ask_station name])%list
   \/ log1 = (log ++ [ask_station name; ask_river name])%list)
  /\ forall e, res = inl e ->
       e = no_matching_records \/ e = row_header_mismatch \/ e = TypeError
       \/ e = KeyError "station_no" \/ exists r, e = RequestException r.
Proof.
  assert (Hdecoded : forall lg u e lg',
    _first_hit u lg = (inl e, lg') ->
    e = no_matching_records \/ e = row_header_mismatch \/ e = TypeError
    \/ e = KeyError "station_no" \/ exists r, e = RequestException r).
  { intros lg u e lg'. rewrite first_hit_run.
    destruct (exchange lg _) as [e'|data] eqn:Hex.
    - intros [= <- _]. apply exchange_raises in Hex. auto.
    - intros [= Hrec _]. apply first_hit_record_raises in Hrec. tauto. }
  assert (Hnumber : forall station e,
    station_no_in station = inl e -> e = KeyError "station_no").
  { intros station e. unfold station_no_in.
    destruct (Py.getitem _ station); [discriminate | now intros [= <-]]. }
  rewrite station_no_of_run. cbv zeta. unfold ask_station, ask_river.
  destruct (_first_hit (station_name_query name) log)
    as [[e1|station] l1] eqn:Hfirst.
  - destruct (isinstance_LookupError e1).
    + destruct (_first_hit (river_name_query name) _)
        as [[e2|station] l2] eqn:Hsecond;
        intros [= <- <-]; rewrite <- app_assoc; (split; [now right|]).
      * intros e [= <-]. exact (Hdecoded _ _ _ _ Hsecond).
      * intros e He. apply Hnumber in He. auto.
    + intros [= <- <-]. split; [now left|].
      intros e [= <-]. exact (Hdecoded _ _ _ _ Hfirst).
  - intros [= <- <-]. split; [now left|].
    intros e He. apply Hnumber in He. auto.
Qed.

(** X2. A call sends at most three requests, in a fixed order: the query by
    station name; then, if at all, the query by river name; then, if at
    all, the values request.  The two station queries go through the
    [requests] module with a timeout of 30, whatever session was given; only
    the values request goes through the session, with a timeout of 60. *)
Theorem X2_requests_of_a_call :
  exists reqs,
    snd (get_river_level name d parameter resolution session log)
    = (log ++ reqs)%list
    /\ (List.length reqs <= 3)%nat
    /\ (reqs = []
        \/ reqs = [ask_station name]
        \/ reqs = [ask_station name; ask_river name]
        \/ (exists sta_no date,
              checked_date d = inr date
              /\ reqs = [ask_station name;
                         values_request session sta_no parameter resolution date])
        \/ (exists sta_no date,
              checked_date d = inr date
              /\ reqs = [ask_station name; ask_river name;
                         values_request session sta_no parameter resolution date])).
Proof.
  rewrite get_river_level_run.
  destruct (checked_date d) as [e|date] eqn:Hdate.
  - exists []. simpl. rewrite app_nil_r. repeat split; auto.
  - destruct (station_no_of name log) as [[e|sta_no] log1] eqn:Hstation;
      destruct (station_no_of_cases _ _ Hstation) as [[-> | ->] _].
    + exists [ask_station name]. simpl. repeat split; auto.
    + exists [ask_station name; ask_river name]. simpl. repeat split; auto.
    + eexists [ask_station name; _]. cbv zeta. simpl snd.
      rewrite <- app_assoc. split; [reflexivity|]. split; [simpl; lia|].
      right; right; right; left. eauto.
    + eexists [ask_station name; ask_river name; _]. cbv zeta. simpl snd.
      rewrite <- app_assoc. split; [reflexivity|]. split; [simpl; lia|].
      right; right; right; right. eauto.
Qed.

(** X3. For a name that [quote_plus] accepts (here, as everywhere in this
    file, a string of code points below 256): a call sends nothing exactly
    when the date is refused, that is, when it is a string with a "T" in
    it, or a [datetime].  Any other string, and any [date], gets the query
    by station name sent. *)
Theorem X3_nothing_sent_iff_date_refused :
  snd (get_river_level name d parameter resolution session log) = log
  <-> refused_date d.
Proof.
  rewrite <- checked_date_refuses, get_river_level_run.
  destruct (checked_date d) as [e|date] eqn:Hdate.
  - split; [eauto | reflexivity].
  - split; [|intros [e He]; discriminate].
    intros Hsent. exfalso.
    destruct (station_no_of name log) as [[e|sta_no] log1] eqn:Hstation;
      destruct (station_no_of_cases _ _ Hstation) as [[-> | ->] _];
      cbv zeta in Hsent; simpl snd in Hsent;
      apply (f_equal (@List.length request)) in Hsent;
      rewrite ?length_app in Hsent; simpl in Hsent; lia.
Qed.

(** X4. A station list that is not JSON ends the call with the
    [JSONDecodeError] of [requests] after that one request: it is not a
    [LookupError], so the query by river name is not tried. *)
Theorem X4_station_list_not_json date resp :
  checked_date d = inr date ->
  server log (ask_station name) = inr resp ->
  raise_for_status resp = inr tt ->
  body resp = None ->
  get_river_level name d parameter resolution session log
  = (inl (RequestException JSONDecodeError), (log ++ [ask_station name])%list).
Proof.
  intros Hdate Hresp Hstatus Hbody.
  rewrite get_river_level_run, Hdate, station_no_of_run, first_hit_run.
  unfold exchange, json_of. fold (ask_station name).
  now rewrite Hresp, Hstatus, Hbody.
Qed.

(** X5. A first record without [station_no] ends the call with [KeyError]
    once the station list is in: the values request is not sent, and,
    although [KeyError] is a [LookupError], neither is the query by river
    name, line 97 being outside the [try]. *)
Theorem X5_record_without_station_no date station log1 :
  checked_date d = inr date ->
  _first_hit (station_name_query name) log = (inr station, log1) ->
  Py.getitem (JStr "station_no") station = None ->
  get_river_level name d parameter resolution session log
  = (inl (KeyError "station_no"), (log ++ [ask_station name])%list)
  /\ isinstance_LookupError (KeyError "station_no") = true.
Proof.
  intros Hdate Hfirst Hnone. split; [|reflexivity].
  rewrite get_river_level_run, Hdate, station_no_of_run, Hfirst. cbv zeta.
  unfold station_no_in. now rewrite Hnone.
Qed.

(** X6. After a [LookupError] of the query by station name, what the query
    by river name raises is what the call raises: the first error is
    dropped, so a malformed station list followed by an empty one is
    reported as "no matching records". *)
Theorem X6_fallback_error_replaces_first date e1 log1 e2 log2 :
  checked_date d = inr date ->
  _first_hit (station_name_query name) log = (inl e1, log1) ->
  isinstance_LookupError e1 = true ->
  _first_hit (river_name_query name) log1 = (inl e2, log2) ->
  get_river_level name d parameter resolution session log = (inl e2, log2).
Proof.
  intros Hdate Hfirst Hlookup Hsecond.
  destruct (fallback_run _ _ _ _ Hfirst Hlookup) as [Hstation _].
  now rewrite get_river_level_run, Hdate, Hstation, Hsecond.
Qed.

End Calls.

(** X4 on a station list answered with a web page. *)
Lemma X4_station_list_not_json_witness :
  let env := html_page in
  let page := {| status_code := 200; body := None |} in
  checked_date (DateStr "2024-01-01") = inr "2024-01-01"
  /\ server [] (ask_station "Pitnacree") = inr page
  /\ raise_for_status page = inr tt
  /\ body page = None
  /\ Scenario.call "Pitnacree" "2024-01-01"
     = (inl (RequestException JSONDecodeError), [ask_station "Pitnacree"]).
Proof.
  cbv zeta. do 4 (split; [reflexivity|]).
  exact (X4_station_list_not_json (env := html_page)
           "Pitnacree" (DateStr "2024-01-01") default_parameter default_resolution
           None [] "2024-01-01" _ eq_refl eq_refl eq_refl eq_refl).
Defined.

(** X5 on a station list without the [station_no] field. *)
Lemma X5_record_without_station_no_witness :
  let env := unnumbered in
  let record := [ (JStr "station_name", JStr "Pitnacree");
                  (JStr "river_name", JStr "Tay") ] in
  checked_date (DateStr "2024-01-01") = inr "2024-01-01"
  /\ _first_hit (station_name_query "Pitnacree") []
     = (inr record, [ask_station "Pitnacree"])
  /\ Py.getitem (JStr "station_no") record = None
  /\ Scenario.call "Pitnacree" "2024-01-01"
     = (inl (KeyError "station_no"), [ask_station "Pitnacree"]).
Proof.
  cbv zeta. do 3 (split; [reflexivity|]).
  exact (proj1 (X5_record_without_station_no (env := unnumbered)
                  "Pitnacree" (DateStr "2024-01-01")
                  default_parameter default_resolution None []
                  "2024-01-01" _ [ask_station "Pitnacree"]
                  eq_refl eq_refl eq_refl)).
Defined.

(** X6 on a malformed station list followed by an empty one. *)
Lemma X6_fallback_error_replaces_first_witness :
  let env := garbled_then_empty in
  checked_date (DateStr "2024-01-01") = inr "2024-01-01"
  /\ _first_hit (station_name_query "Pitnacree") []
     = (inl row_header_mismatch, [ask_station "Pitnacree"])
  /\ isinstance_LookupError row_header_mismatch = true
  /\ _first_hit (river_name_query "Pitnacree") [ask_station "Pitnacree"]
     = (inl no_matching_records, [ask_station "Pitnacree"; ask_river "Pitnacree"])
  /\ Scenario.call "Pitnacree" "2024-01-01"
     = (inl no_matching_records, [ask_station "Pitnacree"; ask_river "Pitnacree"]).
Proof.
  cbv zeta. do 4 (split; [reflexivity|]).
  exact (X6_fallback_error_replaces_first (env := garbled_then_empty)
           "Pitnacree" (DateStr "2024-01-01") default_parameter default_resolution
           None [] "2024-01-01" _ _ _ _ eq_refl eq_refl eq_refl eq_refl).
Defined.

(** ** The names in the queries *)


Lemma quote_char_read_back c t :
  unquote_head (Urllib.quote_char c ++ t) = Some (c, t).
Proof. destruct c as [[] [] [] [] [] [] [] []]; reflexivity. Qed.

Lemma quote_char_safe c :
  Urllib.always_safe c = true -> Urllib.quote_char c = String c EmptyString.
Proof. unfold Urllib.quote_char. now intros ->. Qed.

Lemma quote_plus_inj a : forall b, _q a = _q b -> a = b.
Proof.
  unfold _q.
  induction a as [|c a IH]; intros [|c' b] Hq; simpl in Hq.
  - reflexivity.
  - apply (f_equal unquote_head) in Hq.
    rewrite quote_char_read_back in Hq. discriminate.
  - apply (f_equal unquote_head) in Hq.
    rewrite quote_char_read_back in Hq. discriminate.
  - apply (f_equal unquote_head) in Hq.
    rewrite !quote_char_read_back in Hq. injection Hq as -> Hq.
    f_equal. now apply IH.
Qed.

Lemma append_inv_head (p a b : string) : p ++ a = p ++ b -> a = b.
Proof. induction p as [|c p IH]; simpl; [trivial | intros [= H]; auto]. Qed.


(** X9. A name made of letters, digits and [_.-~] is put in the queries as
    it is. *)
Theorem X9_plain_name_unchanged (name : string) :
  all_chars Urllib.always_safe name = true ->
  _q name = name
  /\ station_name_query name = base_query ++ "&station_name=" ++ name
  /\ river_name_query name = base_query ++ "&river_name=" ++ name.
Proof.
  intros Hsafe.
  assert (Hq : _q name = name).
  { unfold _q. induction name as [|c name IH]; [reflexivity|].
    simpl in Hsafe. apply andb_prop in Hsafe as [Hc Hname].
    simpl. now rewrite (quote_char_safe _ Hc), IH. }
  unfold station_name_query, river_name_query. now rewrite Hq.
Qed.

(** X10. Different names give different queries, by station name and by
    river name: quoting loses nothing of the name. *)
Theorem X10_queries_tell_names_apart (a b : string) :
  a <> b ->
  _q a <> _q b
  /\ station_name_query a <> station_name_query b
  /\ river_name_query a <> river_name_query b.
Proof.
  intros Hdiff. unfold station_name_query, river_name_query.
  repeat split; intros Heq; apply Hdiff, quote_plus_inj.
  - exact Heq.
  - now apply append_inv_head in Heq; apply append_inv_head in Heq.
  - now apply append_inv_head in Heq; apply append_inv_head in Heq.
Qed.

(** X9 on the name of the example call. *)
Lemma X9_plain_name_unchanged_witness :
  all_chars Urllib.always_safe "Pitnacree" = true
  /\ _q "Pitnacree" = "Pitnacree"
  /\ station_name_query "Pitnacree" = base_query ++ "&station_name=" ++ "Pitnacree"
  /\ river_name_query "Pitnacree" = base_query ++ "&river_name=" ++ "Pitnacree".
Proof.
  split; [reflexivity|]. exact (X9_plain_name_unchanged "Pitnacree" eq_refl).
Defined.

(** X10 on a name and the same name with a wildcard. *)
Lemma X10_queries_tell_names_apart_witness :
  "Tay" <> "Tay*"
  /\ _q "Tay" <> _q "Tay*"
  /\ station_name_query "Tay" <> station_name_query "Tay*"
  /\ river_name_query "Tay" <> river_name_query "Tay*".
Proof.
  assert (Hdiff : "Tay" <> "Tay*") by discriminate.
  split; [exact Hdiff|]. exact (X10_queries_tell_names_apart "Tay" "Tay*" Hdiff).
Defined.

(** ** The column labels of a values record *)

Lemma split_cons sep s : exists w ws, PyStr.split sep s = w :: ws.
Proof.
  induction s as [|c s [w [ws IH]]]; simpl; [eauto|].
  destruct (Ascii.eqb c sep); [eauto|]. rewrite IH. eauto.
Qed.

Lemma join_cons sep p w ws :
  join sep (p :: w :: ws) = p ++ sep ++ join sep (w :: ws).
Proof. reflexivity. Qed.

Lemma join_split sep s :
  join (String sep EmptyString) (PyStr.split sep s) = s.
Proof.
  induction s as [|c s IH]; [reflexivity|]. simpl.
  destruct (split_cons sep s) as [w [ws Hsplit]]. rewrite Hsplit in *.
  destruct (Ascii.eqb_spec c sep) as [->|_].
  - rewrite join_cons, IH. reflexivity.
  - destruct ws as [|w' ws]; simpl in *; [now rewrite IH|].
    now rewrite <- IH.
Qed.

Lemma split_whole sep p :
  all_chars (fun c => negb (Ascii.eqb c sep)) p = true -> PyStr.split sep p = [p].
Proof.
  induction p as [|c p IH]; simpl; [reflexivity|].
  intros Hall. apply andb_prop in Hall as [Hc Hp].
  apply negb_true_iff in Hc. now rewrite Hc, (IH Hp).
Qed.

Lemma split_before_sep sep p rest :
  all_chars (fun c => negb (Ascii.eqb c sep)) p = true ->
  PyStr.split sep (p ++ String sep rest) = p :: PyStr.split sep rest.
Proof.
  induction p as [|c p IH]; simpl.
  - now rewrite Ascii.eqb_refl.
  - intros Hall. apply andb_prop in Hall as [Hc Hp].
    apply negb_true_iff in Hc. now rewrite Hc, (IH Hp).
Qed.

Lemma split_join sep parts :
  parts <> [] ->
  Forall (fun p => all_chars (fun c => negb (Ascii.eqb c sep)) p = true) parts ->
  PyStr.split sep (join (String sep EmptyString) parts) = parts.
Proof.
  intros Hsome Hclean. induction Hclean as [|p parts Hp Hparts IH]; [contradiction|].
  destruct parts as [|w ws]; [now apply split_whole|].
  rewrite join_cons.
  change (String sep EmptyString ++ join (String sep EmptyString) (w :: ws))
    with (String sep (join (String sep EmptyString) (w :: ws))).
  rewrite (split_before_sep _ _ _ Hp), IH; [reflexivity | discriminate].
Qed.

Lemma split_length sep s :
  List.length (PyStr.split sep s) = S (count_char sep s).
Proof.
  induction s as [|c s IH]; [reflexivity|]. simpl.
  destruct (Ascii.eqb c sep); simpl; [now rewrite IH|].
  destruct (split_cons sep s) as [w [ws Hsplit]]. now rewrite Hsplit in *.
Qed.

Lemma split_pieces sep s :
  Forall (fun p => all_chars (fun c => negb (Ascii.eqb c sep)) p = true)
         (PyStr.split sep s).
Proof.
  induction s as [|c s IH]; simpl; [now constructor|].
  destruct (Ascii.eqb c sep) eqn:Hc; [now constructor|].
  destruct (PyStr.split sep s) as [|w ws]; [constructor; [simpl; now rewrite Hc | constructor]|].
  inversion IH as [|? ? Hw Hws]; subst.
  constructor; [simpl; now rewrite Hc, Hw | assumption].
Qed.

Lemma lstrip_chars p s :
  all_chars p s = true -> all_chars p (PyStr.lstrip s) = true.
Proof.
  induction s as [|c s IH]; simpl; [trivial|].
  intros Hall. destruct (PyStr.isspace c); [|exact Hall].
  apply andb_prop in Hall as [_ Hs]. auto.
Qed.

Lemma rstrip_chars p s :
  all_chars p s = true -> all_chars p (PyStr.rstrip s) = true.
Proof.
  induction s as [|c s IH]; simpl; [trivial|].
  intros Hall. apply andb_prop in Hall as [Hc Hs]. specialize (IH Hs).
  destruct (PyStr.rstrip s) as [|c' kept].
  - destruct (PyStr.isspace c); simpl; [reflexivity | now rewrite Hc].
  - cbn [all_chars] in *. now rewrite Hc, IH.
Qed.

Lemma lstrip_head s c rest :
  PyStr.lstrip s = String c rest -> PyStr.isspace c = false.
Proof.
  induction s as [|c' s IH]; simpl; [discriminate|].
  destruct (PyStr.isspace c') eqn:Hc'; [exact IH|].
  now intros [= <- _].
Qed.

Lemma rstrip_kept c s c' kept :
  PyStr.rstrip s = String c' kept ->
  PyStr.rstrip (String c s) = String c (String c' kept).
Proof. intros Hkept. simpl. now rewrite Hkept. Qed.

Lemma rstrip_idem s : PyStr.rstrip (PyStr.rstrip s) = PyStr.rstrip s.
Proof.
  induction s as [|c s IH]; [reflexivity|].
  destruct (PyStr.rstrip s) as [|c' kept] eqn:Hkept.
  - simpl. rewrite Hkept.
    destruct (PyStr.isspace c) eqn:Hc; [reflexivity|]. simpl. now rewrite Hc.
  - rewrite (rstrip_kept c s c' kept Hkept). now apply rstrip_kept.
Qed.

Lemma strip_idem s : PyStr.strip (PyStr.strip s) = PyStr.strip s.
Proof.
  unfold PyStr.strip.
  destruct (PyStr.lstrip s) as [|c rest] eqn:Hleft; [reflexivity|].
  apply lstrip_head in Hleft.
  assert (Hkeeps : exists kept, PyStr.rstrip (String c rest) = String c kept).
  { simpl. destruct (PyStr.rstrip rest); [rewrite Hleft|]; eauto. }
  destruct Hkeeps as [kept Hkept]. rewrite Hkept.
  cbn [PyStr.lstrip]. rewrite Hleft, <- Hkept. apply rstrip_idem.
Qed.

(** X11. A [columns] text made of names put together with commas, none of
    which holds a comma, is read back as those names, each without the
    blanks around it: a space after the commas changes nothing. *)
Theorem X11_labels_of_joined_names (names : list string) :
  names <> [] ->
  Forall (fun n => all_chars not_comma n = true) names ->
  labels_of (join "," names) = map PyStr.strip names.
Proof.
  intros Hsome Hclean. unfold labels_of. now rewrite split_join.
Qed.

(** X12. Whatever the [columns] text, there is one label more than it has
    commas (so at least one), no label holds a comma or has a blank at
    either end, and the pieces the text is cut into, put together with
    commas, are the text again. *)
Theorem X12_labels_of_any_text (text : string) :
  List.length (labels_of text) = S (count_char "," text)
  /\ Forall (fun l => PyStr.strip l = l /\ all_chars not_comma l = true)
            (labels_of text)
  /\ join "," (PyStr.split "," text) = text.
Proof.
  unfold labels_of. split; [|split].
  - now rewrite length_map, split_length.
  - apply Forall_forall. intros l Hin.
    apply in_map_iff in Hin as [piece [<- Hpiece]].
    split; [apply strip_idem|].
    apply rstrip_chars, lstrip_chars.
    exact (proj1 (Forall_forall _ _) (split_pieces "," text) piece Hpiece).
  - apply join_split.
Qed.

(** X11 on the default return fields written with blanks after the commas. *)
Lemma X11_labels_of_joined_names_witness :
  let names := ["Timestamp"; " Value"; " Quality Code "] in
  names <> []
  /\ Forall (fun n => all_chars not_comma n = true) names
  /\ labels_of "Timestamp, Value, Quality Code " = ["Timestamp"; "Value"; "Quality Code"].
Proof.
  cbv zeta.
  assert (Hclean : Forall (fun n => all_chars not_comma n = true)
                          ["Timestamp"; " Value"; " Quality Code "])
    by (repeat constructor).
  assert (Hsome : ["Timestamp"; " Value"; " Quality Code "] <> [])
    by discriminate.
  split; [exact Hsome|]. split; [exact Hclean|].
  exact (X11_labels_of_joined_names _ Hsome Hclean).
Defined.

(** ** The table of a call that returns *)

Lemma positions_none label cols : forall k,
  positions label cols k = [] <-> ~ In label cols.
Proof.
  induction cols as [|c cols IH]; intros k; simpl; [tauto|].
  destruct (String.eqb_spec c label) as [->|Hc].
  - split; [discriminate | intros Hout; exfalso; apply Hout; now left].
  - rewrite IH. split; [intros Hout [Heq|Hin]; tauto | tauto].
Qed.

Lemma positions_single label cols : forall k i,
  positions label cols k = [i] ->
  exists j, i = (k + j)%nat /\ ~ In label (remove_nth j cols).
Proof.
  induction cols as [|c cols IH]; intros k i; simpl; [discriminate|].
  destruct (String.eqb_spec c label) as [->|Hc].
  - intros [= <- Hrest]. exists O. split; [lia|].
    simpl. now apply (positions_none label cols (S k)).
  - intros Hpos. destruct (IH _ _ Hpos) as [j [-> Hout]].
    exists (S j). split; [lia|]. simpl. intros [Heq|Hin]; tauto.
Qed.

Section Tables.

Context {env : Environment}.

Lemma indexed_by_timestamp_shape name date df0 df :
  indexed_by_timestamp name date df0 = inr df ->
  exists i,
    positions "Timestamp" (columns df0) 0 = [i]
    /\ columns df = remove_nth i (columns df0)
    /\ index_name df = Some "Timestamp".
Proof.
  unfold indexed_by_timestamp, df_getitem, to_datetime_utc, df_setitem.
  destruct (df_empty df0); [discriminate|].
  destruct (positions "Timestamp" (columns df0) 0) as [|i [|j others]] eqn:Hpos;
    try discriminate.
  destruct (pd_to_datetime (column i df0)) as [e|instants]; [discriminate|].
  simpl from_pandas. cbv iota beta.
  destruct (_ =? _)%nat; [|discriminate].
  unfold df_set_index. simpl columns. rewrite Hpos.
  intros [= <-]. exists i. now repeat split.
Qed.

(** X13. A call that returns a table returns one indexed by [Timestamp] and
    without a column of that name: the timestamps have left the columns. *)
Theorem X13_timestamp_is_the_index name d parameter resolution session log df log' :
  get_river_level name d parameter resolution session log = (inr df, log') ->
  index_name df = Some "Timestamp" /\ ~ In "Timestamp" (columns df).
Proof.
  intros Hrun.
  apply get_river_level_returns in Hrun as [date [raw [_ Hframe]]].
  apply values_frame_returns in Hframe
    as [fields [rest [text [data [df0 [_ [_ [_ [_ Hindexed]]]]]]]]].
  apply indexed_by_timestamp_shape in Hindexed as [i [Hpos [-> ->]]].
  split; [reflexivity|].
  apply positions_single in Hpos as [j [-> Hout]]. exact Hout.
Qed.

Lemma remove_replace_nth v : forall (r : list cell) i,
  remove_nth i (replace_nth i v r) = remove_nth i r.
Proof.
  induction r as [|x r IH]; intros [|i]; simpl; try reflexivity.
  now rewrite IH.
Qed.

Lemma remove_nth_map {A B : Type} (f : A -> B) : forall (r : list A) i,
  remove_nth i (map f r) = map f (remove_nth i r).
Proof.
  induction r as [|x r IH]; intros [|i]; simpl; try reflexivity.
  now rewrite IH.
Qed.

Lemma labelled_length rs : forall k, List.length (labelled k rs) = List.length rs.
Proof. induction rs as [|r rs IH]; intros k; simpl; [reflexivity | now rewrite IH]. Qed.

Lemma reindexed_table i : forall (table : list (cell * list cell)) instants,
  (forall row, In row table -> (i < List.length (snd row))%nat) ->
  List.length instants = List.length table ->
  map (fun r => (nth i (snd r) NaT, remove_nth i (snd r)))
      (map (fun rv => (fst (fst rv), replace_nth i (snd rv) (snd (fst rv))))
           (combine table instants))
  = combine instants (map (fun row => remove_nth i (snd row)) table).
Proof.
  induction table as [|row table IH]; intros [|t instants] Hwide Hlen;
    simpl in *; try discriminate; [reflexivity|].
  rewrite nth_replace_nth by (apply Hwide; now left).
  rewrite remove_replace_nth.
  f_equal. apply IH; [|lia]. intros row' Hin. apply Hwide. now right.
Qed.

Variables (name : string) (d : date_arg) (parameter resolution : string)
          (session : option Session) (log : list request).

Hypothesis pandas_rows : builds_aligned_rows.

(** X14. The way to a table.  When pandas builds, from the [data] of the
    values record and its labels, a table that is not empty, has a cell
    under every column and exactly one column [Timestamp], and the
    conversion of that column gives an instant per row, the call returns
    that table re-indexed: the rows in the order pandas has them, each
    labelled by its instant, the cells under the other columns as pandas
    built them, and the other columns in their order. *)
Theorem X14_table_reindexed_by_timestamp
    date raw log' fields rest text data df0 i instants :
  receives_values name d parameter resolution session log date raw log' ->
  raw = JList (JDict fields :: rest) ->
  Py.lookup "columns" fields = Some (JStr text) ->
  Py.lookup "data" fields = Some data ->
  pd_DataFrame data (labels_of text) = inr df0 ->
  columns df0 <> [] ->
  rows df0 <> [] ->
  rectangular df0 ->
  positions "Timestamp" (columns df0) 0 = [i] ->
  pd_to_datetime (column i df0) = inr instants ->
  List.length instants = List.length (rows df0) ->
  get_river_level name d parameter resolution session log
  = (inr {| columns := remove_nth i (columns df0);
            index_name := Some "Timestamp";
            rows := combine instants
                            (map (fun row => remove_nth i (snd row)) (rows df0)) |},
     log').
Proof.
  intros Hvalues -> Hcols Hdata Hpd Hcolumns Hrows Hwide Hpos Hconv Hlen.
  assert (Hi : (i < List.length (columns df0))%nat).
  { assert (Hin : In i (positions "Timestamp" (columns df0) 0))
      by (rewrite Hpos; now left).
    apply positions_bound in Hin. lia. }
  rewrite (get_river_level_receives _ _ _ _ _ _ _ _ _ Hvalues).
  rewrite (values_frame_record _ _ _ _ _ Hdata), Hcols, Hpd.
  simpl from_pandas. cbv iota beta.
  unfold indexed_by_timestamp, df_empty.
  replace (List.length (columns df0) =? 0)%nat with false
    by (destruct (columns df0); [contradiction | reflexivity]).
  replace (List.length (rows df0) =? 0)%nat with false
    by (destruct (rows df0); [contradiction | reflexivity]).
  simpl orb. cbv iota.
  unfold df_getitem, df_setitem, df_set_index. rewrite Hpos.
  simpl to_datetime_utc. rewrite Hconv. simpl from_pandas. cbv iota beta.
  rewrite Hlen, Nat.eqb_refl. simpl columns. rewrite Hpos.
  simpl rows. rewrite reindexed_table; [reflexivity | | exact Hlen].
  intros row Hin. unfold rectangular in Hwide.
  now rewrite (proj1 (Forall_forall _ _) Hwide row Hin).
Qed.

(** X15. Pandas building the table of a list of aligned rows: a values
    record with at least one row and no label [Timestamp] makes the call
    raise the [KeyError] of pandas for that label, not a [LookupError] of
    the module. *)
Theorem X15_no_timestamp_label date raw log' fields rest text rs :
  receives_values name d parameter resolution session log date raw log' ->
  raw = JList (JDict fields :: rest) ->
  Py.lookup "columns" fields = Some (JStr text) ->
  Py.lookup "data" fields = Some (JList (map JList rs)) ->
  rs <> [] ->
  Forall (fun r => List.length r = List.length (labels_of text)) rs ->
  ~ In "Timestamp" (labels_of text) ->
  get_river_level name d parameter resolution session log
  = (inl (PandasError (PdError "KeyError" "Timestamp")), log').
Proof.
  intros Hvalues -> Hcols Hdata Hsome Haligned Hout.
  apply (positions_none "Timestamp" (labels_of text) 0) in Hout.
  rewrite (get_river_level_receives _ _ _ _ _ _ _ _ _ Hvalues).
  rewrite (values_frame_record _ _ _ _ _ Hdata), Hcols.
  rewrite (pandas_rows _ _ Haligned). simpl from_pandas. cbv iota beta.
  unfold indexed_by_timestamp, df_empty, frame_of_rows. simpl columns. simpl rows.
  rewrite labelled_length.
  assert (Hlabels : (List.length (labels_of text) =? 0)%nat = false).
  { unfold labels_of. now destruct (split_cons "," text) as [w [ws ->]]. }
  assert (Hrows : (List.length rs =? 0)%nat = false).
  { destruct rs; [contradiction | reflexivity]. }
  rewrite Hlabels, Hrows. simpl orb. cbv iota.
  unfold df_getitem. simpl columns. now rewrite Hout.
Qed.

End Tables.

(** X13 on the call that finds the station under the river name. *)
Lemma X13_timestamp_is_the_index_witness :
  let env := Scenario.tay Scenario.station_list in
  Scenario.call "Tay" "2024-01-01"
  = (inr Scenario.two_readings,
     [ask_station "Tay"; ask_river "Tay"; Scenario.fetch_values])
  /\ index_name Scenario.two_readings = Some "Timestamp"
  /\ ~ In "Timestamp" (columns Scenario.two_readings).
Proof.
  cbv zeta.
  assert (Hrun : Scenario.call (env := Scenario.tay Scenario.station_list)
                   "Tay" "2024-01-01"
                 = (inr Scenario.two_readings,
                    [ask_station "Tay"; ask_river "Tay"; Scenario.fetch_values]))
    by (vm_compute; reflexivity).
  split; [exact Hrun|].
  exact (X13_timestamp_is_the_index _ _ _ _ _ _ _ _ Hrun).
Defined.

(** X14 on two readings of 1 January 2024. *)
Lemma X14_table_reindexed_by_timestamp_witness :
  let data := JList [Scenario.midnight_row; Scenario.quarter_past_row] in
  let raw := Scenario.values_of [Scenario.midnight_row; Scenario.quarter_past_row] in
  let env := Scenario.pitnacree raw in
  let text := "Timestamp,Value,Quality Code" in
  let df0 := frame_of_rows
               ["Timestamp"; "Value"; "Quality Code"]
               [ [JStr "2024-01-01T00:00:00.000Z"; JFloat Scenario.level_1_5; JInt 200];
                 [JStr "2024-01-01T00:15:00.000Z"; JFloat Scenario.level_2_0; JInt 200] ] in
  let instants := [Instant 1704067200000000000; Instant 1704068100000000000] in
  let sent := [ask_station "Pitnacree"; Scenario.fetch_values] in
  receives_values "Pitnacree" (DateStr "2024-01-01")
                  default_parameter default_resolution None []
                  "2024-01-01" raw sent
  /\ pd_DataFrame data (labels_of text) = inr df0
  /\ columns df0 <> []
  /\ rows df0 <> []
  /\ rectangular df0
  /\ positions "Timestamp" (columns df0) 0 = [0%nat]
  /\ pd_to_datetime (column 0 df0) = inr instants
  /\ List.length instants = List.length (rows df0)
  /\ Scenario.call "Pitnacree" "2024-01-01" = (inr Scenario.two_readings, sent).
Proof.
  cbv zeta.
  set (df0 := frame_of_rows
                ["Timestamp"; "Value"; "Quality Code"]
                [ [JStr "2024-01-01T00:00:00.000Z"; JFloat Scenario.level_1_5; JInt 200];
                  [JStr "2024-01-01T00:15:00.000Z"; JFloat Scenario.level_2_0; JInt 200] ]).
  assert (Hcolumns : columns df0 <> []) by discriminate.
  assert (Hrows : rows df0 <> []) by discriminate.
  assert (Hwide : rectangular df0) by (repeat constructor).
  split; [apply pitnacree_receives|].
  split; [reflexivity|].
  split; [exact Hcolumns|]. split; [exact Hrows|]. split; [exact Hwide|].
  do 3 (split; [reflexivity|]).
  exact (X14_table_reindexed_by_timestamp
           (env := Scenario.pitnacree
                     (Scenario.values_of [Scenario.midnight_row; Scenario.quarter_past_row]))
           "Pitnacree" (DateStr "2024-01-01") default_parameter default_resolution
           None [] "2024-01-01" _ _
           [ ("ts_id", JStr "58085010");
             ("columns", JStr "Timestamp,Value,Quality Code");
             ("data", JList [Scenario.midnight_row; Scenario.quarter_past_row]) ]
           [] "Timestamp,Value,Quality Code"
           (JList [Scenario.midnight_row; Scenario.quarter_past_row])
           df0 0%nat [Instant 1704067200000000000; Instant 1704068100000000000]
           (pitnacree_receives _) eq_refl eq_refl eq_refl eq_refl
           Hcolumns Hrows Hwide eq_refl eq_refl eq_refl).
Defined.

(** X15 on a values record whose first label is [Time]. *)
Lemma X15_no_timestamp_label_witness :
  let rs := [ [JStr "2024-01-01T00:00:00.000Z"; JFloat Scenario.level_1_5; JInt 200] ] in
  let text := "Time,Value,Quality Code" in
  let raw := JList [ JDict [ ("columns", JStr text);
                             ("data", JList [Scenario.midnight_row]) ] ] in
  let env := mislabelled in
  let sent := [ask_station "Pitnacree"; Scenario.fetch_values] in
  builds_aligned_rows
  /\ receives_values "Pitnacree" (DateStr "2024-01-01")
                     default_parameter default_resolution None []
                     "2024-01-01" raw sent
  /\ rs <> []
  /\ Forall (fun r => List.length r = List.length (labels_of text)) rs
  /\ ~ In "Timestamp" (labels_of text)
  /\ Scenario.call "Pitnacree" "2024-01-01"
     = (inl (PandasError (PdError "KeyError" "Timestamp")), sent).
Proof.
  cbv zeta.
  assert (Haligned :
    Forall (fun r : list json =>
              List.length r = List.length (labels_of "Time,Value,Quality Code"))
      [ [JStr "2024-01-01T00:00:00.000Z"; JFloat Scenario.level_1_5; JInt 200] ])
    by (repeat constructor).
  assert (Hout : ~ In "Timestamp" (labels_of "Time,Value,Quality Code")).
  { intros [H | [H | [H | []]]]; discriminate. }
  assert (Hsome : [ [JStr "2024-01-01T00:00:00.000Z"; JFloat Scenario.level_1_5; JInt 200] ]
                  <> []) by discriminate.
  split; [apply world_builds_aligned_rows|].
  split; [apply pitnacree_receives|].
  split; [exact Hsome|]. split; [exact Haligned|]. split; [exact Hout|].
  exact (X15_no_timestamp_label (env := mislabelled)
           "Pitnacree" (DateStr "2024-01-01") default_parameter default_resolution
           None [] (world_builds_aligned_rows _)
           "2024-01-01" _ _
           [ ("columns", JStr "Time,Value,Quality Code");
             ("data", JList [Scenario.midnight_row]) ]
           [] "Time,Value,Quality Code"
           [ [JStr "2024-01-01T00:00:00.000Z"; JFloat Scenario.level_1_5; JInt 200] ]
           (pitnacree_receives _) eq_refl eq_refl eq_refl Hsome Haligned Hout).
Defined.

(** ** The station record *)

Section Records.

Context {env : Environment}.

(** X16. When the query by station name returns a record whose
    [station_no] is a string, the next and last request is the values
    request for the URL whose [ts_path] is the quoted
    [1/<station_no>/<parameter>/<resolution>], with the date as [from] and
    the date at 23:59:59 as [to]: the query by river name is not sent. *)
Theorem X16_station_found_by_name name d parameter resolution session log
    date station log1 number :
  checked_date d = inr date ->
  _first_hit (station_name_query name) log = (inr station, log1) ->
  Py.getitem (JStr "station_no") station = Some (JStr number) ->
  let req := {| via := session;
                url := written_values_url number parameter resolution date;
                timeout := 60 |} in
  station_no_of name log = (inr (JStr number), (log ++ [ask_station name])%list)
  /\ get_river_level name d parameter resolution session log
     = (match exchange (log ++ [ask_station name]) req with
        | inl e => inl e
        | inr raw => values_frame name date raw
        end, (log ++ [ask_station name; req])%list).
Proof.
  intros Hdate Hfirst Hno req.
  assert (Hstation : station_no_of name log
                     = (inr (JStr number), (log ++ [ask_station name])%list)).
  { rewrite station_no_of_run, Hfirst. cbv zeta.
    unfold station_no_in. now rewrite Hno. }
  split; [exact Hstation|].
  rewrite get_river_level_run, Hdate, Hstation. cbv zeta.
  rewrite values_request_written. fold req.
  now rewrite <- app_assoc.
Qed.

Lemma setitem_string_keyed n v record :
  string_keyed record -> string_keyed (Py.setitem (JStr n) v record).
Proof.
  induction record as [|[k' v'] record IH]; intros Hkeys k w; simpl.
  - intros [[= <- _] | []]. eauto.
  - destruct (Py.key_eqb k' (JStr n)).
    + intros [[= <- _] | Hin].
      * apply (Hkeys k' v'). now left.
      * apply (Hkeys k w). now right.
    + intros [[= <- _] | Hin].
      * apply (Hkeys k' v'). now left.
      * apply IH in Hin; [exact Hin|].
        intros k0 v0 H0. apply (Hkeys k0 v0). now right.
Qed.

Lemma getitem_setitem k n v record :
  string_keyed record ->
  Py.getitem (JStr k) (Py.setitem (JStr n) v record)
  = if String.eqb n k then Some v else Py.getitem (JStr k) record.
Proof.
  induction record as [|[k' v'] record IH]; intros Hkeys; simpl.
  - reflexivity.
  - destruct (Hkeys k' v' (or_introl eq_refl)) as [m ->]. simpl.
    assert (Hrest : string_keyed record)
      by (intros k0 v0 H0; apply (Hkeys k0 v0); now right).
    destruct (String.eqb_spec m n) as [->|Hmn]; simpl.
    + now destruct (String.eqb n k).
    + rewrite (IH Hrest).
      destruct (String.eqb_spec m k) as [->|Hmk]; [|reflexivity].
      destruct (String.eqb_spec n k) as [->|_]; [contradiction | reflexivity].
Qed.

Lemma getitem_fold k names : forall values record,
  string_keyed record ->
  Py.getitem (JStr k)
    (fold_left (fun acc kv => Py.setitem (fst kv) (snd kv) acc)
               (combine (map JStr names) values) record)
  = match last_binding k names values with
    | Some w => Some w
    | None => Py.getitem (JStr k) record
    end.
Proof.
  induction names as [|n names IH]; intros [|v values] record Hkeys;
    simpl; try reflexivity.
  rewrite IH by now apply setitem_string_keyed.
  destruct (last_binding k names values); [reflexivity|].
  rewrite getitem_setitem by assumption.
  now destruct (String.eqb n k).
Qed.

(** X17. When the header is made of names and the first data row is as
    long, [_first_hit] returns a record in which a name is bound to the
    value at the last place where the header has it: a header that repeats
    [station_no] gives the call the last of its values. *)
Theorem X17_repeated_field_takes_last_value u log names values rest :
  answers log (station_request u)
          (JList (JList (map JStr names) :: JList values :: rest)) ->
  List.length values = List.length names ->
  exists record,
    _first_hit u log = (inr record, (log ++ [station_request u])%list)
    /\ forall k, Py.getitem (JStr k) record = last_binding k names values.
Proof.
  intros Hanswer Hlen. apply answers_exchange in Hanswer.
  rewrite first_hit_run, Hanswer, first_hit_record_headed.
  simpl Py.len. simpl Py.iter. rewrite Hlen, length_map, Nat.eqb_refl.
  simpl negb. cbv iota.
  unfold Py.dict_of, Py.zip.
  replace (forallb _ (combine (map JStr names) values)) with true.
  - eexists. split; [reflexivity|]. intros k.
    rewrite getitem_fold by (intros ? ? []).
    now destruct (last_binding k names values).
  - symmetry. apply forallb_forall. intros [k w] Hin.
    apply in_combine_l, in_map_iff in Hin as [n [<- _]]. reflexivity.
Qed.

End Records.

(** X16 on the example call: one station query, then the values. *)
Lemma X16_station_found_by_name_witness :
  let env := Scenario.pitnacree
               (Scenario.values_of [Scenario.midnight_row; Scenario.quarter_past_row]) in
  let values :=
    {| via := None;
       url := "https://timeseries.sepa.org.uk/KiWIS/KiWIS?service=kisters&type=queryServices&datasource=0&request=getTimeseriesValues&ts_path=1%2F15018%2FSG%2F15m.Cmd&from=2024-01-01&to=2024-01-01T23:59:59&returnfields=Timestamp%2CValue%2CQuality+Code&format=json";
       timeout := 60 |} in
  checked_date (DateStr "2024-01-01") = inr "2024-01-01"
  /\ _first_hit (station_name_query "Pitnacree") []
     = (inr Scenario.pitnacree_record, [ask_station "Pitnacree"])
  /\ Py.getitem (JStr "station_no") Scenario.pitnacree_record = Some (JStr "15018")
  /\ station_no_of "Pitnacree" [] = (inr (JStr "15018"), [ask_station "Pitnacree"])
  /\ Scenario.call "Pitnacree" "2024-01-01"
     = (inr Scenario.two_readings, [ask_station "Pitnacree"; values]).
Proof.
  cbv zeta. do 3 (split; [reflexivity|]).
  destruct (X16_station_found_by_name
              (env := Scenario.pitnacree
                        (Scenario.values_of [Scenario.midnight_row; Scenario.quarter_past_row]))
              "Pitnacree" (DateStr "2024-01-01") default_parameter default_resolution
              None [] "2024-01-01" Scenario.pitnacree_record
              [ask_station "Pitnacree"] "15018" eq_refl eq_refl eq_refl)
    as [Hstation Hcall].
  split; [exact Hstation|].
  etransitivity; [exact Hcall | vm_compute; reflexivity].
Defined.

(** X17 on a header that names [station_no] at both ends. *)
Lemma X17_repeated_field_takes_last_value_witness :
  let env := renumbered in
  let u := station_name_query "Pitnacree" in
  let names := ["station_no"; "station_name"; "station_no"] in
  let values := [JStr "15018"; JStr "Pitnacree"; JStr "234150"] in
  answers [] (station_request u) (JList [JList (map JStr names); JList values])
  /\ List.length values = List.length names
  /\ exists record,
       _first_hit u [] = (inr record, [station_request u])
       /\ Py.getitem (JStr "station_no") record = Some (JStr "234150").
Proof.
  cbv zeta.
  assert (Hanswer : answers (env := renumbered) []
                      (station_request (station_name_query "Pitnacree"))
                      (JList [ JList (map JStr ["station_no"; "station_name"; "station_no"]);
                               JList [JStr "15018"; JStr "Pitnacree"; JStr "234150"] ])).
  { eexists. split; [reflexivity|]. split; reflexivity. }
  split; [exact Hanswer|]. split; [reflexivity|].
  destruct (X17_repeated_field_takes_last_value _ _ _ _ _ Hanswer eq_refl)
    as [record [Hrun Hlast]].
  exists record. split; [exact Hrun|]. exact (Hlast "station_no").
Defined.
